(** * actualpy: the replication client [Actual] (src/actual/__init__.py)

    A shallow embedding of the methods of class [Actual] that carry the
    replication engine: [apply_changes], [update_metadata],
    [download_master_encryption_key], [sync], [commit] and
    [_run_bank_sync_account].  Python objects become records, dictionaries
    become finite maps, exceptions become the [Raise] branch of [result], and
    the mutable object [self] is threaded explicitly. *)

From Stdlib Require Import ZArith.
From Stdlib.Strings Require Import Byte Ascii.
From stdpp Require Import gmap strings list fin_maps.

(** ** Values, messages and exceptions *)

(** The value carried by a change record: [Message.get_value()] yields
    [None], a boolean, an integer, a float or a string.  A float is kept
    as its IEEE-754 bit pattern. *)
Inductive Variant : Type :=
| VNull
| VBool (b : bool)
| VInt (n : Z)
| VFloat (bits : Z)
| VStr (s : string).

#[global] Instance Variant_eq_dec : EqDecision Variant.
Proof. solve_decision. Defined.

(** [actual.protobuf_models.Message]: one field assignment on one row. *)
Record Message : Type := {
  dataset : string;
  row : string;
  column : string;
  value : Variant
}.

(** [Message.get_value()]. *)
Definition get_value (m : Message) : Variant := value m.

(** The exceptions the modelled methods raise. *)
Inductive Exn : Type :=
| UnknownFileId (msg : string)
| ActualError (msg : string)
| ActualDecryptionError (msg : string)
| ActualBankSyncError (error_type status reason : string)
| AttributeError (msg : string).

(** The outcome of a call: a value, or the exception raised. *)
Inductive result (A : Type) : Type :=
| Ok (a : A)
| Raise (e : Exn).
Arguments Ok {A} a.
Arguments Raise {A} e.

(** The line feed that ends the two error messages of [apply_changes]. *)
Definition newline : string := String "010"%char EmptyString.

(** Python truthiness of an optional string: [None] and [""] are falsy. *)
Definition truthy (o : option string) : bool :=
  match o with
  | Some s => negb (String.eqb s "")
  | None => false
  end.

(** ** The replica state *)

(** Modelled from the spec: the timestamp type of actual.protobuf_models is
    missing from the sources; a LogicalTimestamp is milliseconds, counter and
    client id. *)
Record LogicalTimestamp : Type := {
  millis : Z;
  counter : Z;
  clientId : string
}.

(** The replica clock [HULC_Client]: the methods read [client_id] and [ts];
    the counter is the one of the spec's ReplicaClock. *)
Record HULC_Client : Type := {
  client_id : string;
  initial_count : Z;
  ts : Z
}.

(** [db.sqlite]: the relational tables, addressed by (table, row id) and
    holding one attribute map per row, and the persisted clock as
    [get_or_create_clock] reads and writes it. *)
Record Database : Type := {
  tables : gmap (string * string) (gmap string Variant);
  messages_clock : option HULC_Client
}.

(** The fields of the remote file the modelled methods read. *)
Record RemoteFileListDTO : Type := {
  file_id : string;
  file_name : string;
  group_id : option string;
  encrypt_key_id : option string
}.

(** A message as it travels: the timestamp and the encoded content. *)
Record MessageEnvelope : Type := {
  timestamp : LogicalTimestamp;
  is_encrypted : bool;
  content : list byte
}.

(** A [SyncRequest] as handed to [sync_sync]. *)
Record SyncRequest : Type := {
  req_messages : list MessageEnvelope;
  fileId : string;
  groupId : option string;
  keyId : option string;
  since : LogicalTimestamp
}.

(** A [SyncResponse] as returned by [sync_sync]: the envelopes and the
    object's own decoder [get_messages(master_key)], which lives in
    actual.protobuf_models and is carried here as a method of the object. *)
Record SyncResponse : Type := {
  messages : list MessageEnvelope;
  get_messages : option (list byte) -> result (list Message)
}.

(** The tracked editing session ([strong_reference_session]): rows written
    but not yet committed, and the change buffer [session.info["messages"]]. *)
Record Session : Type := {
  pending : list (string * string * gmap string Variant);
  info_messages : option (list Message)
}.

(** The object [self].  [metadata_json] is the content of
    [data_dir/metadata.json], [None] while the file does not exist;
    [_meta] is the reflected schema, table name to column names;
    [relay] lists the requests passed to [sync_sync] so far. *)
Record Actual : Type := {
  _file : option RemoteFileListDTO;
  metadata_json : option (gmap string Variant);
  engine : option Database;
  _meta : gmap string (gset string);
  _session : option Session;
  _client : option HULC_Client;
  _master_key : option (list byte);
  relay : list SyncRequest
}.

Definition set_metadata_json (md : option (gmap string Variant)) (a : Actual) : Actual :=
  {| _file := _file a; metadata_json := md; engine := engine a; _meta := _meta a;
     _session := _session a; _client := _client a; _master_key := _master_key a;
     relay := relay a |}.

Definition set_engine (e : option Database) (a : Actual) : Actual :=
  {| _file := _file a; metadata_json := metadata_json a; engine := e; _meta := _meta a;
     _session := _session a; _client := _client a; _master_key := _master_key a;
     relay := relay a |}.

Definition set_session (s : option Session) (a : Actual) : Actual :=
  {| _file := _file a; metadata_json := metadata_json a; engine := engine a; _meta := _meta a;
     _session := s; _client := _client a; _master_key := _master_key a;
     relay := relay a |}.

Definition set_client (c : option HULC_Client) (a : Actual) : Actual :=
  {| _file := _file a; metadata_json := metadata_json a; engine := engine a; _meta := _meta a;
     _session := _session a; _client := c; _master_key := _master_key a;
     relay := relay a |}.

Definition set_master_key (k : option (list byte)) (a : Actual) : Actual :=
  {| _file := _file a; metadata_json := metadata_json a; engine := engine a; _meta := _meta a;
     _session := _session a; _client := _client a; _master_key := k;
     relay := relay a |}.

Definition set_relay (r : list SyncRequest) (a : Actual) : Actual :=
  {| _file := _file a; metadata_json := metadata_json a; engine := engine a; _meta := _meta a;
     _session := _session a; _client := _client a; _master_key := _master_key a;
     relay := r |}.

Definition set_tables (t : gmap (string * string) (gmap string Variant)) (db : Database) : Database :=
  {| tables := t; messages_clock := messages_clock db |}.

Definition set_messages_clock (c : option HULC_Client) (db : Database) : Database :=
  {| tables := tables db; messages_clock := c |}.

Abbreviation Tables := (gmap (string * string) (gmap string Variant)).
Abbreviation Document := (gmap string Variant).

(** ** The merge applier: [Actual.apply_changes] and [Actual.update_metadata] *)

(** Modelled from the spec: [get_class_from_reflected_table_name] is missing
    from the sources; it is the schema introspection of the local store,
    resolving a dataset name to its table or to [None]. *)
Definition get_class_from_reflected_table_name
    (meta : gmap string (gset string)) (table_name : string) : option string :=
  match meta !! table_name with
  | Some _ => Some table_name
  | None => None
  end.

(** Modelled from the spec: [get_attribute_from_reflected_table_name] is
    missing from the sources; it is [resolveColumn(dataset, name)], giving the
    column or [None]. *)
Definition get_attribute_from_reflected_table_name
    (meta : gmap string (gset string)) (table_name column_name : string) : option string :=
  match meta !! table_name with
  | Some cols => if decide (column_name ∈ cols) then Some column_name else None
  | None => None
  end.

(** Modelled from the spec: [apply_change] is missing from the sources; it is
    the store's [update(dataset,row,attrs)] on a row obtained by
    [getOrCreate]: the attributes given overwrite those of the row, the other
    attributes of the row are kept, and a row that does not exist is created. *)
Definition apply_change (s : gmap (string * string) (gmap string Variant))
    (table : string) (table_id : string) (values : gmap string Variant)
    : gmap (string * string) (gmap string Variant) :=
  <[(table, table_id) := values ∪ default ∅ (s !! (table, table_id))]> s.

(** The patch is merged into the document read from the file when the file
    exists ([config.update(patch)]), and is the whole document otherwise. *)
Definition update_metadata (md : option (gmap string Variant)) (patch : gmap string Variant)
    : option (gmap string Variant) :=
  match md with
  | Some config => Some (patch ∪ config)
  | None => Some patch
  end.

(** The local variables of the loop.  [current_table] and [current_id] are
    assigned together on every path, so they are one optional pair;
    [s] is the content seen through the session opened on the engine. *)
Record LoopState : Type := {
  s : gmap (string * string) (gmap string Variant);
  metadata : option (gmap string Variant);
  current : option (string * string);
  current_value : gmap string Variant
}.

(** The two [ActualError]s of [apply_changes]. *)
Definition table_not_found (m : Message) : Exn :=
  ActualError ("Actual found a table not supported by the library: table '"
                 +:+ dataset m +:+ "' not found" +:+ newline).

Definition column_not_found (m : Message) : Exn :=
  ActualError ("Actual found a column not supported by the library: column '"
                 +:+ column m +:+ "' at table '" +:+ dataset m +:+ "' not found" +:+ newline).

(** One iteration of [for message in messages]. *)
Definition step (meta : gmap string (gset string)) (st : LoopState) (message : Message)
    : result LoopState :=
  if decide (dataset message = "prefs") then
    Ok {| s := s st;
          metadata := update_metadata (metadata st) {[ row message := get_value message ]};
          current := current st;
          current_value := current_value st |}
  else
    match get_class_from_reflected_table_name meta (dataset message) with
    | None => Raise (table_not_found message)
    | Some table =>
      match get_attribute_from_reflected_table_name meta (dataset message) (column message) with
      | None => Raise (column_not_found message)
      | Some column =>
        let next_id := row message in
        match current st with
        | Some (current_table, current_id) =>
          if truthy (Some current_id)
             && (negb (bool_decide (current_id = next_id))
                 || negb (bool_decide (table = current_table)))
          then
            Ok {| s := apply_change (s st) current_table current_id (current_value st);
                  metadata := metadata st;
                  current := Some (table, next_id);
                  current_value := {[ column := get_value message ]} |}
          else
            Ok {| s := s st;
                  metadata := metadata st;
                  current := Some (table, next_id);
                  current_value := <[ column := get_value message ]> (current_value st) |}
        | None =>
          Ok {| s := s st;
                metadata := metadata st;
                current := Some (table, next_id);
                current_value := <[ column := get_value message ]> (current_value st) |}
        end
      end
    end.

(** The loop: the state when it ends, and the exception that ended it. *)
Fixpoint loop (meta : gmap string (gset string)) (msgs : list Message) (st : LoopState)
    : option Exn * LoopState :=
  match msgs with
  | [] => (None, st)
  | message :: rest =>
    match step meta st message with
    | Ok st' => loop meta rest st'
    | Raise e => (Some e, st)
    end
  end.

(** The write of the last group, after the loop. *)
Definition final_flush (st : LoopState) : gmap (string * string) (gmap string Variant) :=
  match current st with
  | Some (current_table, current_id) =>
    apply_change (s st) current_table current_id (current_value st)
  | None => s st
  end.

(** [apply_changes]: the metadata file is written as the loop goes, the
    relational writes become durable at [s.commit()] only, so an exception
    leaves the tables as they were. *)
Definition apply_changes (self : Actual) (msgs : list Message) : result unit * Actual :=
  match engine self with
  | None =>
    (Raise (UnknownFileId "No valid file available, download one with download_budget()"), self)
  | Some db =>
    let st0 := {| s := tables db; metadata := metadata_json self;
                  current := None; current_value := ∅ |} in
    match loop (_meta self) msgs st0 with
    | (Some e, st) => (Raise e, set_metadata_json (metadata st) self)
    | (None, st) =>
      (Ok (), set_engine (Some (set_tables (final_flush st) db))
                (set_metadata_json (metadata st) self))
    end
  end.

(** A sequence of calls to [apply_change], each a table, a row id and the
    attributes, performed in order. *)
Definition apply_writes (W : list (string * string * Document)) (t : Tables) : Tables :=
  fold_left (fun acc w => apply_change acc w.1.1 w.1.2 w.2) W t.

(** ** The logical clock and [Actual.sync] *)

(** The total order of timestamps: milliseconds, then counter, then client
    id. *)
Definition ts_leb (a b : LogicalTimestamp) : bool :=
  (millis a <? millis b)%Z
  || ((millis a =? millis b)%Z
      && ((counter a <? counter b)%Z
          || ((counter a =? counter b)%Z && String.leb (clientId a) (clientId b)))).

(** The later of two timestamps. *)
Definition ts_max (a b : LogicalTimestamp) : LogicalTimestamp :=
  if ts_leb a b then b else a.

(** The maximum timestamp observed in a backlog. *)
Definition max_timestamp (backlog : list MessageEnvelope) : option LogicalTimestamp :=
  match backlog with
  | [] => None
  | e :: rest => Some (fold_left ts_max (map timestamp rest) (timestamp e))
  end.

(** A backlog in ascending timestamp order. *)
Fixpoint ascending (backlog : list MessageEnvelope) : bool :=
  match backlog with
  | e1 :: ((e2 :: _) as rest) => ts_leb (timestamp e1) (timestamp e2) && ascending rest
  | _ => true
  end.

(** The receive rule in the spec's words: the milliseconds are the maximum
    of the local, the remote and the wall clock; the counter is one more than
    the larger counter if the milliseconds stay those of the local clock, and
    zero otherwise. *)
Definition spec_receive (local : HULC_Client) (remote : LogicalTimestamp) (now : Z)
    : HULC_Client :=
  let m := Z.max (Z.max (ts local) (millis remote)) now in
  {| client_id := client_id local;
     initial_count := if (m =? ts local)%Z
                      then Z.max (initial_count local) (counter remote) + 1
                      else 0%Z;
     ts := m |}.

(** Modelled from the spec: [HULC_Client.from_timestamp] is missing from the
    sources; it reads a replica clock off a wire timestamp: client id,
    counter and milliseconds. *)
Definition from_timestamp (t : LogicalTimestamp) : HULC_Client :=
  {| client_id := clientId t; initial_count := counter t; ts := millis t |}.

(** Modelled from the spec: [get_or_create_clock(session, client)] is missing
    from the sources; called with a client it sets the ReplicaClock, kept
    outside the replicated tables, to that client, in the session it is
    given: the write is durable once that session is committed. *)
Definition get_or_create_clock (db : Database) (client : HULC_Client) : Database :=
  set_messages_clock (Some client) db.

(** Modelled from the spec: [SyncRequest.set_timestamp(client_id, now)] is
    missing from the sources; it stamps the request with the client's last
    timestamp, from which the relay answers. *)
Definition set_timestamp (req : SyncRequest) (client_id : string) (now : Z) : SyncRequest :=
  {| req_messages := req_messages req; fileId := fileId req; groupId := groupId req;
     keyId := keyId req;
     since := {| millis := now; counter := 0; clientId := client_id |} |}.

(** Modelled from the spec: [SyncRequest.set_null_timestamp(client_id)] is
    missing from the sources; it stamps the request with the epoch. *)
Definition set_null_timestamp (req : SyncRequest) (client_id : string) : SyncRequest :=
  set_timestamp req client_id 0.

(** The timestamp field of a request before it is stamped. *)
Definition null_timestamp : LogicalTimestamp :=
  {| millis := 0; counter := 0; clientId := "" |}.

(** [changes] is what [sync_sync(request)] answers.  [self._file] or
    [self._client] being [None] makes the attribute access fail.  The session
    opened for [get_or_create_clock] is closed without a commit, so what it
    wrote is discarded and the database keeps the clock it had. *)
Definition sync (self : Actual) (changes : SyncResponse) : result unit * Actual :=
  match _file self, _client self with
  | None, _ => (Raise (AttributeError "'NoneType' object has no attribute 'file_id'"), self)
  | _, None => (Raise (AttributeError "'NoneType' object has no attribute 'client_id'"), self)
  | Some file, Some client =>
    let request :=
      set_timestamp
        {| req_messages := []; fileId := file_id file; groupId := group_id file;
           keyId := encrypt_key_id file; since := null_timestamp |}
        (client_id client) (ts client) in
    let self1 := set_relay (relay self ++ [request]) self in
    match get_messages changes (_master_key self1) with
    | Raise e => (Raise e, self1)
    | Ok msgs =>
      match apply_changes self1 msgs with
      | (Raise e, self2) => (Raise e, self2)
      | (Ok _, self2) =>
        match messages changes with
        | [] => (Ok (), self2)
        | first :: rest =>
          let new_client := from_timestamp (timestamp (List.last rest first)) in
          let self3 := set_client (Some new_client) self2 in
          let _uncommitted :=
            (fun db => get_or_create_clock db new_client) <$> engine self3 in
          (Ok (), self3)
        end
      end
    end
  end.

(** ** [Actual.commit] and [Actual.download_master_encryption_key] *)

Section Collaborators.

(** [SyncRequest.set_messages(messages, client, master_key)] of
    actual.protobuf_models: the encoding, stamping and encryption of the
    change buffer into the request.  It is handed the client object, whose
    clock it advances as it stamps: it gives back the request and the
    client. *)
Variable set_messages :
  SyncRequest -> list Message -> HULC_Client -> option (list byte) ->
  SyncRequest * HULC_Client.

(** [create_key_buffer(password, salt)] of actual.crypto, the PBKDF2-HMAC
    derivation, and [user_get_key(file_id).data.salt] of the key
    registry. *)
Variable create_key_buffer : string -> string -> list byte.
Variable user_get_key : string -> string.

(** Modelled from the spec: the session's [commit()] is missing from the
    sources; it makes the buffered rows durable in the local store and
    discards the change buffer. *)
Definition session_commit (self : Actual) (session : Session) : Actual :=
  set_engine ((fun db => set_tables (apply_writes (pending session) (tables db)) db)
                <$> engine self)
    (set_session (Some {| pending := []; info_messages := None |}) self).

(** The request [commit] builds before it reads the change buffer: the ids
    of the file, the key id when the file has one, and the null timestamp of
    the client. *)
Definition commit_request (file : RemoteFileListDTO) (client : HULC_Client) : SyncRequest :=
  set_null_timestamp
    {| req_messages := []; fileId := file_id file; groupId := group_id file;
       keyId := if truthy (encrypt_key_id file) then encrypt_key_id file else None;
       since := null_timestamp |}
    (client_id client).

(** [commit]: the request is built first, the change buffer is read into it
    by [set_messages], which works on [self._client] itself, the session is
    committed, and the request is sent when the file has a group id.
    [session.flush()] changes nothing that is modelled. *)
Definition commit (self : Actual) : result unit * Actual :=
  match _session self with
  | None => (Raise (ActualError "No session has been created for the file."), self)
  | Some session =>
    match _file self, _client self with
    | None, _ => (Raise (AttributeError "'NoneType' object has no attribute 'file_id'"), self)
    | _, None =>
      (Raise (AttributeError "'NoneType' object has no attribute 'client_id'"), self)
    | Some file, Some client =>
      let req := commit_request file client in
      let '(req, client) :=
        match info_messages session with
        | Some msgs => set_messages req msgs client (_master_key self)
        | None => (req, client)
        end in
      let self1 := session_commit (set_client (Some client) self) session in
      if truthy (group_id file)
      then (Ok (), set_relay (relay self1 ++ [req]) self1)
      else (Ok (), self1)
    end
  end.

(** [download_master_encryption_key]: the two tests of the method, in its
    order. *)
Definition download_master_encryption_key (self : Actual)
    (encryption_password : option string) : result (option (list byte)) * Actual :=
  match _file self with
  | None => (Raise (AttributeError "'NoneType' object has no attribute 'encrypt_key_id'"), self)
  | Some file =>
    if truthy (encrypt_key_id file) && bool_decide (encryption_password = None)
    then (Raise (ActualDecryptionError
                   "File is encrypted but no encryption password was provided."), self)
    else
      let self1 :=
        match encryption_password with
        | Some password =>
          if truthy (encrypt_key_id file)
          then
            let salt := user_get_key (file_id file) in
            set_master_key (Some (create_key_buffer password salt)) self
          else self
        | None => self
        end in
      (Ok (_master_key self1), self1)
  end.

End Collaborators.

(** ** Bank sync: [Actual._run_bank_sync_account] *)

(** An account row: its id, the provider's account id, the sync source, the
    off-budget flag and the id of its bank ([acct.bank.bank_id]), [None]
    when the account has no bank. *)
Record Accounts : Type := {
  Accounts_id : string;
  account_id : option string;
  account_sync_source : option string;
  offbudget : bool;
  bank : option string
}.

(** A raw transaction of the external feed; amounts are in cents and dates
    are day numbers. *)
Record TransactionItem : Type := {
  date : Z;
  payee_name : option string;
  notes : option string;
  transaction_amount : Z;
  transaction_id : string;
  booked : bool
}.

(** What [bank_sync_transactions] answers. *)
Inductive BankSyncResponse : Type :=
| BankSyncErrorDTO (error_type status reason : string)
| BankSyncTransactionData (balance : Z) (all : list TransactionItem).

(** A local transaction entity, with the outcome [changed()] reports on it. *)
Record Transactions : Type := {
  tx_date : Z;
  tx_acct : string;
  tx_payee : option string;
  tx_notes : option string;
  tx_amount : Z;
  tx_cleared : bool;
  tx_imported_id : option string;
  starting_balance_flag : Z;
  changed : bool
}.

(** The entities seen through [self.session]. *)
Record Ledger : Type := {
  ledger_transactions : list Transactions;
  ledger_payees : list string
}.

(** [str.lower()] on ASCII text. *)
Definition lower_ascii (c : ascii) : ascii :=
  let n := nat_of_ascii c in
  if Nat.leb 65 n && Nat.leb n 90 then ascii_of_nat (n + 32) else c.

Fixpoint lower (str : string) : string :=
  match str with
  | EmptyString => EmptyString
  | String c rest => String (lower_ascii c) (lower rest)
  end.

(** Modelled from the spec: [get_or_create_payee] is missing from the
    sources; it gives the payee of that name, creating it when absent. *)
Definition get_or_create_payee (session : Ledger) (name : string) : string * Ledger :=
  if bool_decide (name ∈ ledger_payees session)
  then (name, session)
  else (name, {| ledger_transactions := ledger_transactions session;
                 ledger_payees := ledger_payees session ++ [name] |}).

(** Modelled from the spec: [create_transaction] is missing from the sources;
    it adds a new entity with the given date, account, payee, notes, amount
    and cleared flag to the session and returns it. *)
Definition create_transaction (session : Ledger) (date : Z) (acct : Accounts)
    (payee : option string) (notes : option string) (amount : Z) (cleared : bool)
    : Transactions * Ledger :=
  let t := {| tx_date := date; tx_acct := Accounts_id acct; tx_payee := payee;
              tx_notes := notes; tx_amount := amount; tx_cleared := cleared;
              tx_imported_id := None; starting_balance_flag := 0; changed := true |} in
  (t, {| ledger_transactions := ledger_transactions session ++ [t];
         ledger_payees := ledger_payees session |}).

(** [reconciled_transaction.starting_balance_flag = 1]: the entity is the one
    the session holds, so the assignment shows in the session as well. *)
Definition set_starting_balance_flag (t : Transactions) : Transactions :=
  {| tx_date := tx_date t; tx_acct := tx_acct t; tx_payee := tx_payee t;
     tx_notes := tx_notes t; tx_amount := tx_amount t; tx_cleared := tx_cleared t;
     tx_imported_id := tx_imported_id t; starting_balance_flag := 1; changed := changed t |}.

Definition flag_last_created (session : Ledger) : Ledger :=
  {| ledger_transactions :=
       alter set_starting_balance_flag (length (ledger_transactions session) - 1)
         (ledger_transactions session);
     ledger_payees := ledger_payees session |}.

(** [sum(t.transaction_amount.amount for t in new_transactions)]. *)
Definition sum_amounts (new_transactions : list TransactionItem) : Z :=
  fold_left (fun acc t => (acc + transaction_amount t)%Z) new_transactions 0%Z.

(** The balance the starting entry is made of: the reported one, and for
    SimpleFin the reported one less the amounts of all fetched
    transactions. *)
Definition balance_to_use (acct : Accounts) (balance : Z)
    (new_transactions : list TransactionItem) : Z :=
  if truthy (account_sync_source acct)
     && match account_sync_source acct with
        | Some source => String.eqb (lower source) "simplefin"
        | None => false
        end
  then (balance - sum_amounts new_transactions)%Z
  else balance.

(** [acct.bank.bank_id if sync_method == "goCardless" else None]. *)
Definition requisition_id_of (acct : Accounts) (sync_method : string)
    : result (option string) :=
  if String.eqb sync_method "goCardless"
  then match bank acct with
       | Some bank_id => Ok (Some bank_id)
       | None => Raise (AttributeError "'NoneType' object has no attribute 'bank_id'")
       end
  else Ok None.

Section BankSync.

(** [reconcile_transaction] of actual.queries: the matching of one external
    transaction against the session, by imported id and then fuzzily,
    returning the matched or the created entity. *)
Variable reconcile_transaction :
  Ledger -> Z -> Accounts -> string -> option string -> Z -> string -> bool -> string ->
  list Transactions -> Transactions * Ledger.

(** [bank_sync_transactions(sync_method, account_id, start_date,
    requisition_id)] of the server API. *)
Variable bank_sync_transactions :
  string -> option string -> Z -> option string -> BankSyncResponse.

(** [datetime.date.today()]. *)
Variable today : Z.

(** The [if is_first_sync:] block once it is entered. *)
Definition first_sync_starting_balance (session : Ledger) (acct : Accounts) (balance : Z)
    (new_transactions : list TransactionItem) : list Transactions * Ledger :=
  let balance_to_use := balance_to_use acct balance new_transactions in
  if (balance_to_use =? 0)%Z then ([], session)
  else
    let '(payee, session) :=
      if offbudget acct then (None, session)
      else let '(p, session) := get_or_create_payee session "Starting Balance" in
           (Some p, session) in
    let oldest_date :=
      match last new_transactions with
      | Some t => date t
      | None => today
      end in
    let '(reconciled_transaction, session) :=
      create_transaction session oldest_date acct payee None balance_to_use true in
    ([set_starting_balance_flag reconciled_transaction], flag_last_created session).

(** [for transaction in new_transactions[::-1]], on the reversed list. *)
Fixpoint reconcile_all (session : Ledger) (acct : Accounts)
    (reversed : list TransactionItem) (imported_transactions : list Transactions)
    : list Transactions * Ledger :=
  match reversed with
  | [] => (imported_transactions, session)
  | transaction :: rest =>
    if negb (booked transaction) then
      reconcile_all session acct rest imported_transactions
    else
      let payee :=
        if truthy (payee_name transaction) then default "" (payee_name transaction)
        else "" in
      let '(reconciled, session) :=
        reconcile_transaction session (date transaction) acct payee (notes transaction)
          (transaction_amount transaction) (transaction_id transaction)
          (booked transaction) payee imported_transactions in
      if changed reconciled
      then reconcile_all session acct rest (imported_transactions ++ [reconciled])
      else reconcile_all session acct rest imported_transactions
  end.

Definition _run_bank_sync_account (session : Ledger) (acct : Accounts) (start_date : Z)
    (is_first_sync : bool) : result (list Transactions) * Ledger :=
  match account_sync_source acct with
  | None => (Raise (AttributeError "'NoneType' object has no attribute 'lower'"), session)
  | Some sync_method =>
    match requisition_id_of acct sync_method with
    | Raise e => (Raise e, session)
    | Ok requisition_id =>
      match bank_sync_transactions (lower sync_method) (account_id acct) start_date
              requisition_id with
      | BankSyncErrorDTO error_type status reason =>
        (Raise (ActualBankSyncError error_type status reason), session)
      | BankSyncTransactionData balance new_transactions =>
        let '(imported_transactions, session) :=
          if is_first_sync
          then first_sync_starting_balance session acct balance new_transactions
          else ([], session) in
        let '(imported_transactions, session) :=
          reconcile_all session acct (rev new_transactions) imported_transactions in
        (Ok imported_transactions, session)
      end
    end
  end.

End BankSync.

(** ** Notions the statements use *)

(** The relational content of the replica's local store. *)
Definition store (self : Actual) : Tables :=
  match engine self with
  | Some db => tables db
  | None => ∅
  end.

(** A message the schema supports: not a preference, and its column (hence
    its table) resolves. *)
Definition supported (meta : gmap string (gset string)) (m : Message) : bool :=
  negb (bool_decide (dataset m = "prefs"))
  && match get_attribute_from_reflected_table_name meta (dataset m) (column m) with
     | Some _ => true
     | None => false
     end.

(** The schema does not know the message's table, or not its column. *)
Definition unknown (meta : gmap string (gset string)) (m : Message) : Prop :=
  get_class_from_reflected_table_name meta (dataset m) = None
  \/ get_attribute_from_reflected_table_name meta (dataset m) (column m) = None.

(** Applying each message on its own, in the given order. *)
Definition apply_individually (self : Actual) (msgs : list Message) : Actual :=
  fold_left (fun a m => (apply_changes a [m]).2) msgs self.

(** The single write a supported message stands for. *)
Definition assign (t : Tables) (m : Message) : Tables :=
  apply_change t (dataset m) (row m) {[ column m := get_value m ]}.

(** A sequence of calls to [update_metadata], performed in order. *)
Definition apply_patches (P : list Document) (md : option Document) : option Document :=
  fold_left update_metadata P md.

(** The net effect of writes, as a table of overriding attributes. *)
Definition overlay (n t : Tables) : Tables :=
  union_with (fun d old => Some (d ∪ old)) n t.

(** The write left for after the loop by the running group. *)
Definition final_writes (cur : option (string * string)) (cv : Document)
    : list (string * string * Document) :=
  match cur with
  | Some (tb, i) => [(tb, i, cv)]
  | None => []
  end.

(** The running group is well formed: with no group the cache is empty, and
    the id of a running group is not the empty string. *)
Definition group_ok (st : LoopState) : Prop :=
  match current st with
  | Some (_, i) => i ≠ ""
  | None => current_value st = ∅
  end.

(** Two loop states that differ in the metadata document only. *)
Definition same_group (st st' : LoopState) : Prop :=
  s st = s st' /\ current st = current st' /\ current_value st = current_value st'.

(** A feed delivered newest first. *)
Fixpoint descending (new_transactions : list TransactionItem) : bool :=
  match new_transactions with
  | t1 :: ((t2 :: _) as rest) => (date t2 <=? date t1)%Z && descending rest
  | _ => true
  end.

(** The payee of the starting balance: none for an off-budget account. *)
Definition starting_balance_payee (acct : Accounts) : option string :=
  if offbudget acct then None else Some "Starting Balance".

(** The cell (dataset, row, column) of the tables. *)
Definition cell (t : Tables) (ds r c : string) : option Variant :=
  t !! (ds, r) ≫= (.!! c).

(** The message assigns the cell (dataset, row, column). *)
Definition assigns (ds r c : string) (m : Message) : bool :=
  bool_decide (dataset m = ds) && bool_decide (row m = r) && bool_decide (column m = c).

(** The value of the last message of the sequence that assigns the cell. *)
Definition last_assigned (msgs : list Message) (ds r c : string) : option Variant :=
  get_value <$> List.find (assigns ds r c) (rev msgs).

(** ** Concrete replicas, batches and feeds *)

Definition example_schema : gmap string (gset string) :=
  {[ "transactions" := {[ "amount"; "notes" ]} ]}.

Definition example_replica : Actual :=
  {| _file := None;
     metadata_json := Some {[ "budgetName" := VStr "Home" ]};
     engine := Some {| tables := ∅; messages_clock := None |};
     _meta := example_schema;
     _session := None;
     _client := None;
     _master_key := None;
     relay := [] |}.

(** A row with the empty id followed by another row of the same table. *)
Definition empty_row_messages : list Message :=
  [ {| dataset := "transactions"; row := ""; column := "amount"; value := VInt 100 |};
    {| dataset := "transactions"; row := "B"; column := "notes"; value := VStr "x" |} ].

(** Two amounts for the same row, the later one last. *)
Definition amount_messages : list Message :=
  [ {| dataset := "transactions"; row := "A"; column := "amount"; value := VInt 100 |};
    {| dataset := "transactions"; row := "A"; column := "amount"; value := VInt 200 |} ].

Definition prefs_message : Message :=
  {| dataset := "prefs"; row := "budgetName"; column := "value"; value := VStr "Work" |}.

Definition unknown_table_message : Message :=
  {| dataset := "ledgers"; row := "A"; column := "amount"; value := VInt 1 |}.

(** A response whose envelopes decode to the given messages. *)
Definition plain_response (backlog : list (LogicalTimestamp * Message)) : SyncResponse :=
  {| messages := map (fun p => {| timestamp := p.1; is_encrypted := false; content := [] |})
                   backlog;
     get_messages := fun _ => Ok (map snd backlog) |}.

Definition example_file : RemoteFileListDTO :=
  {| file_id := "file-1"; file_name := "Home"; group_id := Some "group-1";
     encrypt_key_id := None |}.

Definition example_client : HULC_Client :=
  {| client_id := "aaaaaaaaaaaaaaaa"; initial_count := 0; ts := 500 |}.

(** A replica with a downloaded file and a clock. *)
Definition synced_replica : Actual :=
  set_client (Some example_client)
    {| _file := Some example_file;
       metadata_json := metadata_json example_replica;
       engine := Some {| tables := ∅; messages_clock := Some example_client |};
       _meta := example_schema;
       _session := None;
       _client := None;
       _master_key := None;
       relay := [] |}.

Definition stamp (ms : Z) : LogicalTimestamp :=
  {| millis := ms; counter := 0; clientId := "bbbbbbbbbbbbbbbb" |}.

(** A backlog whose last message is not its latest. *)
Definition unordered_backlog : SyncResponse :=
  plain_response
    [ (stamp 2000, {| dataset := "transactions"; row := "A"; column := "amount";
                      value := VInt 200 |});
      (stamp 1000, {| dataset := "transactions"; row := "A"; column := "notes";
                      value := VStr "x" |}) ].

Definition ordered_backlog : SyncResponse :=
  plain_response
    [ (stamp 1000, {| dataset := "transactions"; row := "A"; column := "notes";
                      value := VStr "x" |});
      (stamp 2000, {| dataset := "transactions"; row := "A"; column := "amount";
                      value := VInt 200 |}) ].

Definition empty_backlog : SyncResponse := plain_response [].

(** Modelled from the spec: [set_messages] is missing from the sources; this
    instance gives each message of the buffer the client's next timestamp,
    the counter going up by one per message, and leaves the content empty. *)
Definition stamp_messages (req : SyncRequest) (msgs : list Message) (client : HULC_Client)
    (master_key : option (list byte)) : SyncRequest * HULC_Client :=
  ({| req_messages :=
        req_messages req
        ++ imap (fun i _ =>
                   {| timestamp := {| millis := ts client;
                                      counter := initial_count client + Z.of_nat i;
                                      clientId := client_id client |};
                      is_encrypted := bool_decide (is_Some master_key);
                      content := [] |}) msgs;
      fileId := fileId req; groupId := groupId req; keyId := keyId req;
      since := since req |},
   {| client_id := client_id client;
      initial_count := initial_count client + Z.of_nat (length msgs);
      ts := ts client |}).

Definition example_session : Session :=
  {| pending := [("transactions", "A", {[ "amount" := VInt 100 ]})];
     info_messages :=
       Some [ {| dataset := "transactions"; row := "A"; column := "amount";
                 value := VInt 100 |} ] |}.

(** A replica whose file was never registered remotely, with edits pending. *)
Definition unregistered_replica : Actual :=
  set_session (Some example_session)
    {| _file := Some {| file_id := "file-2"; file_name := "Draft"; group_id := None;
                        encrypt_key_id := None |};
       metadata_json := None;
       engine := Some {| tables := ∅; messages_clock := Some example_client |};
       _meta := example_schema;
       _session := None;
       _client := Some example_client;
       _master_key := None;
       relay := [] |}.

Definition encrypted_file : RemoteFileListDTO :=
  {| file_id := "file-3"; file_name := "Vault"; group_id := Some "group-3";
     encrypt_key_id := Some "key-3" |}.

Definition encrypted_replica : Actual :=
  {| _file := Some encrypted_file;
     metadata_json := None;
     engine := None;
     _meta := ∅;
     _session := None;
     _client := None;
     _master_key := None;
     relay := [] |}.

Definition empty_ledger : Ledger := {| ledger_transactions := []; ledger_payees := [] |}.

Definition simplefin_account : Accounts :=
  {| Accounts_id := "acct-1"; account_id := Some "ext-1";
     account_sync_source := Some "simpleFin"; offbudget := false; bank := None |}.

Definition gocardless_account : Accounts :=
  {| Accounts_id := "acct-2"; account_id := Some "ext-2";
     account_sync_source := Some "goCardless"; offbudget := false; bank := Some "bank-2" |}.

(** One settled transaction of -1200 on day 20000. *)
Definition booked_item : TransactionItem :=
  {| date := 20000; payee_name := Some "Grocer"; notes := None;
     transaction_amount := -1200; transaction_id := "ext-tx-1"; booked := true |}.

Definition pending_item : TransactionItem :=
  {| date := 20001; payee_name := Some "Cafe"; notes := None;
     transaction_amount := -300; transaction_id := "ext-tx-2"; booked := false |}.

(** A feed reporting a balance of 5000 and the settled transaction. *)
Definition scenario_feed (_ : string) (_ : option string) (_ : Z) (_ : option string)
    : BankSyncResponse :=
  BankSyncTransactionData 5000 [booked_item].

Definition pending_feed (_ : string) (_ : option string) (_ : Z) (_ : option string)
    : BankSyncResponse :=
  BankSyncTransactionData 5000 [pending_item].

(** Modelled from the spec: [reconcile_transaction] is missing from the
    sources; this instance keeps its first rule only, the match by external
    import identifier: an entity already imported under the identifier is
    returned unchanged, otherwise a new one is created. *)
Definition reconcile_by_imported_id (session : Ledger) (date : Z) (acct : Accounts)
    (payee : string) (notes : option string) (amount : Z) (imported_id : string)
    (cleared : bool) (imported_payee : string) (already_matched : list Transactions)
    : Transactions * Ledger :=
  match List.find (fun t => bool_decide (tx_imported_id t = Some imported_id))
          (ledger_transactions session) with
  | Some t =>
    ({| tx_date := tx_date t; tx_acct := tx_acct t; tx_payee := tx_payee t;
        tx_notes := tx_notes t; tx_amount := tx_amount t; tx_cleared := tx_cleared t;
        tx_imported_id := tx_imported_id t;
        starting_balance_flag := starting_balance_flag t; changed := false |}, session)
  | None =>
    let t := {| tx_date := date; tx_acct := Accounts_id acct; tx_payee := Some payee;
                tx_notes := notes; tx_amount := amount; tx_cleared := cleared;
                tx_imported_id := Some imported_id; starting_balance_flag := 0;
                changed := true |} in
    (t, {| ledger_transactions := ledger_transactions session ++ [t];
           ledger_payees := ledger_payees session |})
  end.

(** ** Further concrete batches *)

(** Amounts and notes for two rows, no row id empty. *)
Definition two_row_messages : list Message :=
  [ {| dataset := "transactions"; row := "A"; column := "amount"; value := VInt 100 |};
    {| dataset := "transactions"; row := "B"; column := "amount"; value := VInt 7 |};
    {| dataset := "transactions"; row := "A"; column := "notes"; value := VStr "x" |} ].

(** ** [Actual.set_file], [Actual.delete_budget] and [Actual.get_metadata] *)

Definition set__file (f : option RemoteFileListDTO) (a : Actual) : Actual :=
  {| _file := f; metadata_json := metadata_json a; engine := engine a; _meta := _meta a;
     _session := _session a; _client := _client a; _master_key := _master_key a;
     relay := relay a |}.

(** An entry of [list_user_files().data]: the remote file and its [deleted]
    field. *)
Record UserFile : Type := {
  user_file : RemoteFileListDTO;
  deleted : Z
}.

(** The test of the selection loop: one of the file id, the name and the
    group id is the identifier, and the file is not deleted. *)
Definition identified_by (identifier : string) (file : UserFile) : bool :=
  (bool_decide (file_id (user_file file) = identifier)
   || bool_decide (file_name (user_file file) = identifier)
   || bool_decide (group_id (user_file file) = Some identifier))
  && (deleted file =? 0)%Z.

(** [set_file]: given a [RemoteFileListDTO] it keeps it; given a string it
    selects among [user_files], what [list_user_files()] answers, and keeps
    the only file selected. *)
Definition set_file (user_files : list UserFile) (self : Actual)
    (file_id : string + RemoteFileListDTO) : result RemoteFileListDTO * Actual :=
  match file_id with
  | inr file => (Ok file, set__file (Some file) self)
  | inl identifier =>
    let selected_files := List.filter (identified_by identifier) user_files in
    match selected_files with
    | [] =>
      (Raise (UnknownFileId ("Could not find a file id or identifier '"
                               +:+ identifier +:+ "'")), self)
    | [file] => (Ok (user_file file), set__file (Some (user_file file)) self)
    | _ :: _ :: _ =>
      (Raise (UnknownFileId ("Multiple files found with identifier '"
                               +:+ identifier +:+ "'")), self)
    end
  end.

(** [delete_budget]: the file is deleted on the server
    ([delete_user_file], taken to succeed) and its group id is reset. *)
Definition delete_budget (self : Actual) : result unit * Actual :=
  match _file self with
  | None => (Raise (UnknownFileId "No current file loaded."), self)
  | Some file =>
    (Ok (), set__file (Some {| file_id := file_id file; file_name := file_name file;
                               group_id := None;
                               encrypt_key_id := encrypt_key_id file |}) self)
  end.

(** [get_metadata]: the document in [metadata.json]; [None] stands for the
    [FileNotFoundError] of reading a file that does not exist. *)
Definition get_metadata (self : Actual) : option (gmap string Variant) :=
  metadata_json self.

(** [update_metadata] on the replica. *)
Definition update_metadata_file (self : Actual) (patch : gmap string Variant) : Actual :=
  set_metadata_json (update_metadata (metadata_json self) patch) self.

(** A listing with a deleted file, two files sharing a name, and a file
    whose name is the group id of another. *)
Definition example_listing : list UserFile :=
  [ {| user_file := {| file_id := "f1"; file_name := "Home"; group_id := Some "g1";
                       encrypt_key_id := None |}; deleted := 0 |};
    {| user_file := {| file_id := "f2"; file_name := "Old"; group_id := Some "g2";
                       encrypt_key_id := None |}; deleted := 1 |};
    {| user_file := {| file_id := "f3"; file_name := "Shared"; group_id := Some "g3";
                       encrypt_key_id := None |}; deleted := 0 |};
    {| user_file := {| file_id := "f4"; file_name := "Shared"; group_id := None;
                       encrypt_key_id := Some "k4" |}; deleted := 0 |} ].

(** ** [Actual.run_rules] and [Actual.run_bank_sync] *)

Section RunBankSync.

Variable reconcile_transaction :
  Ledger -> Z -> Accounts -> string -> option string -> Z -> string -> bool -> string ->
  list Transactions -> Transactions * Ledger.
Variable bank_sync_transactions :
  string -> option string -> Z -> option string -> BankSyncResponse.
Variable today : Z.

(** [get_accounts(session)], [get_account(session, account)],
    [get_transactions(session, account=acct)] and
    [get_transactions(session, is_parent=True)] of actual.queries; the
    transactions of an account come latest first. *)
Variable get_accounts : Ledger -> list Accounts.
Variable get_account : Ledger -> string + Accounts -> option Accounts.
Variable get_transactions : Ledger -> Accounts -> list Transactions.
Variable get_parent_transactions : Ledger -> list Transactions.

(** [bank_sync_status(sync_method).data.configured] of the server API. *)
Variable bank_sync_status : string -> bool.

(** [get_ruleset(session).run(transactions)] of actual.queries: the rules
    rewrite the entities they are given, in place. *)
Variable ruleset_run : Ledger -> list Transactions -> list Transactions * Ledger.

(** [run_rules]: on all parent transactions when none are given. *)
Definition run_rules (session : Ledger) (transactions : option (list Transactions))
    : list Transactions * Ledger :=
  let transactions :=
    match transactions with
    | None => get_parent_transactions session
    | Some transactions => transactions
    end in
  ruleset_run session transactions.

(** The loop [for acct in accounts] of [run_bank_sync].  [default_start_date]
    is the given [start_date] when there is one and is assigned just before
    its use otherwise, while [is_first_sync], once set, stays set for the
    accounts that follow. *)
Fixpoint sync_accounts (session : Ledger) (accounts : list Accounts) (start_date : option Z)
    (is_first_sync : bool) (imported_transactions : list Transactions)
    : result (list Transactions) * Ledger :=
  match accounts with
  | [] => (Ok imported_transactions, session)
  | acct :: rest =>
    if negb (truthy (account_id acct) && truthy (account_sync_source acct)) then
      sync_accounts session rest start_date is_first_sync imported_transactions
    else if negb (bank_sync_status (lower (default "" (account_sync_source acct)))) then
      sync_accounts session rest start_date is_first_sync imported_transactions
    else
      let '(default_start_date, is_first_sync) :=
        match start_date with
        | Some start_date => (start_date, is_first_sync)
        | None =>
          match get_transactions session acct with
          | latest :: _ => (tx_date latest, is_first_sync)
          | [] => ((today - 90)%Z, true)
          end
        end in
      match _run_bank_sync_account reconcile_transaction bank_sync_transactions today
              session acct default_start_date is_first_sync with
      | (Ok transactions, session) =>
        sync_accounts session rest start_date is_first_sync
          (imported_transactions ++ transactions)
      | (Raise e, session) => (Raise e, session)
      end
  end.

(** [run_bank_sync]: an account that [get_account] does not find is [None],
    on which the loop fails at its first attribute access. *)
Definition run_bank_sync (session : Ledger) (account : option (string + Accounts))
    (start_date : option Z) (run_rules_flag : bool) : result (list Transactions) * Ledger :=
  let accounts :=
    match account with
    | None => Ok (get_accounts session)
    | Some account =>
      match get_account session account with
      | Some acct => Ok [acct]
      | None =>
        Raise (AttributeError "'NoneType' object has no attribute 'account_sync_source'")
      end
    end in
  match accounts with
  | Raise e => (Raise e, session)
  | Ok accounts =>
    match sync_accounts session accounts start_date false [] with
    | (Raise e, session) => (Raise e, session)
    | (Ok imported_transactions, session) =>
      if run_rules_flag
      then let '(imported_transactions, session) :=
             run_rules session (Some imported_transactions) in
           (Ok imported_transactions, session)
      else (Ok imported_transactions, session)
    end
  end.

End RunBankSync.

(** The accounts the loop of [run_bank_sync] does not skip. *)
Definition eligible (bank_sync_status : string -> bool) (acct : Accounts) : bool :=
  truthy (account_id acct) && truthy (account_sync_source acct)
  && bank_sync_status (lower (default "" (account_sync_source acct))).

(** An account without a sync source, and the transactions of an account as
    the session holds them, latest first. *)
Definition manual_account : Accounts :=
  {| Accounts_id := "acct-3"; account_id := None; account_sync_source := None;
     offbudget := false; bank := None |}.

Definition transactions_of (session : Ledger) (acct : Accounts) : list Transactions :=
  rev (List.filter (fun t => bool_decide (tx_acct t = Accounts_id acct))
         (ledger_transactions session)).

(** A reconciliation that always creates a new entity. *)
Definition reconcile_always_new (session : Ledger) (date : Z) (acct : Accounts)
    (payee : string) (notes : option string) (amount : Z) (imported_id : string)
    (cleared : bool) (imported_payee : string) (already_matched : list Transactions)
    : Transactions * Ledger :=
  let t := {| tx_date := date; tx_acct := Accounts_id acct; tx_payee := Some payee;
              tx_notes := notes; tx_amount := amount; tx_cleared := cleared;
              tx_imported_id := Some imported_id; starting_balance_flag := 0;
              changed := true |} in
  (t, {| ledger_transactions := ledger_transactions session ++ [t];
         ledger_payees := ledger_payees session |}).

(** A ledger in which the SimpleFin account has no transaction and the
    GoCardless account has one. *)
Definition ledger_with_history : Ledger :=
  {| ledger_transactions :=
       [ {| tx_date := 19990; tx_acct := "acct-2"; tx_payee := Some "Grocer";
            tx_notes := None; tx_amount := -500; tx_cleared := true;
            tx_imported_id := Some "ext-tx-0"; starting_balance_flag := 0;
            changed := false |} ];
     ledger_payees := ["Grocer"] |}.

(** Feeds that answer an error, and a balance of zero. *)
Definition error_feed (_ : string) (_ : option string) (_ : Z) (_ : option string)
    : BankSyncResponse :=
  BankSyncErrorDTO "INVALID_ACCESS_TOKEN" "rejected" "token expired".

Definition zero_balance_feed (_ : string) (_ : option string) (_ : Z) (_ : option string)
    : BankSyncResponse :=
  BankSyncTransactionData 0 [pending_item; booked_item].

(** The two entities of the reconciliation scenario on the SimpleFin
    account. *)
Definition scenario_imported : list Transactions :=
  [ {| tx_date := 20000; tx_acct := "acct-1"; tx_payee := Some "Starting Balance";
       tx_notes := None; tx_amount := 6200; tx_cleared := true; tx_imported_id := None;
       starting_balance_flag := 1; changed := true |};
    {| tx_date := 20000; tx_acct := "acct-1"; tx_payee := Some "Grocer";
       tx_notes := None; tx_amount := -1200; tx_cleared := true;
       tx_imported_id := Some "ext-tx-1"; starting_balance_flag := 0; changed := true |} ].

(** What the sync of the SimpleFin account alone returns under an explicit
    start date, and the session after its first sync on
    [ledger_with_history]. *)
Definition scenario_reconciled : list Transactions :=
  [ {| tx_date := 20000; tx_acct := "acct-1"; tx_payee := Some "Grocer";
       tx_notes := None; tx_amount := -1200; tx_cleared := true;
       tx_imported_id := Some "ext-tx-1"; starting_balance_flag := 0; changed := true |} ].

Definition ledger_after_first_sync : Ledger :=
  {| ledger_transactions := ledger_transactions ledger_with_history ++ scenario_imported;
     ledger_payees := ["Grocer"; "Starting Balance"] |}.

(** ** [Actual.cleanup] *)

(** The tables whose rows [cleanup] deletes when their tombstone is set. *)
Definition tombstone_tables : list string :=
  ["transactions"; "accounts"; "payees"; "categories"; "category_groups"; "schedules";
   "rules"].

Section Cleanup.

(** How SQLite evaluates [tombstone = 1] on a row. *)
Variable tombstone_is_one : gmap string Variant -> bool.

(** The rows the script leaves: those of neither message table that are not
    tombstoned rows of a table of the list. *)
Definition survives (table : string) (attributes : gmap string Variant) : bool :=
  negb (bool_decide (table = "messages_crdt"))
  && negb (bool_decide (table = "messages_clock"))
  && negb (bool_decide (table ∈ tombstone_tables) && tombstone_is_one attributes).

(** [cleanup], on the content of [db.sqlite]: the script empties
    [messages_crdt] and [messages_clock] and deletes the tombstoned rows;
    [ANALYZE] and [VACUUM] change no row. *)
Definition cleanup (db : Database) : Database :=
  {| tables :=
       filter (fun kv : (string * string) * gmap string Variant =>
                 survives kv.1.1 kv.2 = true) (tables db);
     messages_clock := None |}.

End Cleanup.

(** A tombstone test on integer values, and a database with a live row, a
    tombstoned row, a message row and a tombstoned row of another table. *)
Definition tombstone_int (attributes : gmap string Variant) : bool :=
  bool_decide (attributes !! "tombstone" = Some (VInt 1)).

Definition littered_database : Database :=
  {| tables :=
       {[ ("transactions", "A") := {[ "amount" := VInt 100; "tombstone" := VInt 0 ]};
          ("transactions", "B") := {[ "amount" := VInt 7; "tombstone" := VInt 1 ]};
          ("messages_crdt", "1") := {[ "dataset" := VStr "transactions" ]};
          ("notes", "N") := {[ "note" := VStr "kept"; "tombstone" := VInt 1 ]} ]};
     messages_clock := Some example_client |}.

(** * Theorems *)

(** ** Algebra of the store writes *)

Lemma apply_change_lookup_eq (t : Tables) tb i v :
  apply_change t tb i v !! (tb, i) = Some (v ∪ default ∅ (t !! (tb, i))).
Proof. unfold apply_change. by rewrite lookup_insert_eq. Qed.

Lemma apply_change_lookup_ne (t : Tables) tb i v k :
  k ≠ (tb, i) -> apply_change t tb i v !! k = t !! k.
Proof. intros Hk. unfold apply_change. by rewrite lookup_insert_ne. Qed.

Lemma apply_change_overlay (n t : Tables) tb i v :
  apply_change (overlay n t) tb i v = overlay (apply_change n tb i v) t.
Proof.
  apply map_eq; intros k. unfold overlay.
  rewrite lookup_union_with.
  destruct (decide (k = (tb, i))) as [->|Hk].
  - rewrite !apply_change_lookup_eq, lookup_union_with.
    destruct (n !! (tb, i)), (t !! (tb, i)); simpl;
      rewrite ?(assoc_L (∪)), ?(right_id_L ∅ (∪)); done.
  - rewrite !apply_change_lookup_ne, lookup_union_with by done. done.
Qed.

Lemma overlay_empty (t : Tables) : overlay ∅ t = t.
Proof.
  apply map_eq; intros k. unfold overlay.
  rewrite lookup_union_with, lookup_empty. by destruct (t !! k).
Qed.

Lemma overlay_idemp (n t : Tables) : overlay n (overlay n t) = overlay n t.
Proof.
  apply map_eq; intros k. unfold overlay. rewrite !lookup_union_with.
  destruct (n !! k), (t !! k); simpl; try done.
  - by rewrite (assoc_L (∪)), (idemp_L (∪)).
  - by rewrite (idemp_L (∪)).
Qed.

Lemma apply_writes_app (W1 W2 : list (string * string * Document)) (t : Tables) :
  apply_writes (W1 ++ W2) t = apply_writes W2 (apply_writes W1 t).
Proof. apply fold_left_app. Qed.

Lemma apply_writes_overlay (W : list (string * string * Document)) (t : Tables) :
  apply_writes W t = overlay (apply_writes W ∅) t.
Proof.
  induction W as [|w W IH] using rev_ind.
  - simpl. by rewrite overlay_empty.
  - rewrite !apply_writes_app. simpl. rewrite IH. apply apply_change_overlay.
Qed.

(** Writing the same groups a second time changes nothing. *)
Lemma apply_writes_idemp (W : list (string * string * Document)) (t : Tables) :
  apply_writes W (apply_writes W t) = apply_writes W t.
Proof.
  rewrite (apply_writes_overlay W t), (apply_writes_overlay W (overlay _ _)).
  apply overlay_idemp.
Qed.

Lemma update_metadata_union md (p : Document) :
  update_metadata md p = Some (p ∪ default ∅ md).
Proof. destruct md; simpl; [done|]. by rewrite (right_id_L ∅ (∪)). Qed.

Lemma apply_patches_app (P1 P2 : list Document) md :
  apply_patches (P1 ++ P2) md = apply_patches P2 (apply_patches P1 md).
Proof. apply fold_left_app. Qed.

Lemma apply_patches_net (P : list Document) :
  P ≠ [] -> exists n : Document, forall md, apply_patches P md = Some (n ∪ default ∅ md).
Proof.
  induction P as [|p P IH] using rev_ind; [done|]. intros _.
  destruct P as [|q P].
  - exists p. intros md. simpl. apply update_metadata_union.
  - destruct IH as [n Hn]; [done|]. exists (p ∪ n). intros md.
    rewrite apply_patches_app, Hn. simpl.
    by rewrite (assoc_L (∪)).
Qed.

(** Merging the same patches a second time changes nothing. *)
Lemma apply_patches_idemp (P : list Document) md :
  apply_patches P (apply_patches P md) = apply_patches P md.
Proof.
  destruct P as [|p P]; [done|].
  destruct (apply_patches_net (p :: P)) as [n Hn]; [done|].
  rewrite !Hn. simpl. by rewrite (assoc_L (∪)), (idemp_L (∪)).
Qed.

(** ** Shape of a run of the loop *)

(** What the loop does is decided by the schema, the messages and the running
    group alone: the tables and the metadata document only receive the
    writes. *)
Lemma loop_shape meta msgs cur cv :
  exists e W P cur' cv', forall t md,
    loop meta msgs {| s := t; metadata := md; current := cur; current_value := cv |}
    = (e, {| s := apply_writes W t; metadata := apply_patches P md;
             current := cur'; current_value := cv' |}).
Proof.
  revert cur cv. induction msgs as [|m msgs IH]; intros cur cv.
  - exists None, [], [], cur, cv. done.
  - simpl. unfold step. simpl.
    destruct (decide (dataset m = "prefs")) as [Hprefs|Hprefs].
    { destruct (IH cur cv) as (e & W & P & cur' & cv' & H).
      exists e, W, ({[ row m := get_value m ]} :: P), cur', cv'. intros t md. apply H. }
    destruct (get_class_from_reflected_table_name meta (dataset m)) as [tb|];
      [|by exists (Some (table_not_found m)), [], [], cur, cv].
    destruct (get_attribute_from_reflected_table_name meta (dataset m) (column m)) as [c|];
      [|by exists (Some (column_not_found m)), [], [], cur, cv].
    destruct cur as [[ct ci]|].
    + destruct (negb (ci =? "")%string
                && (negb (bool_decide (ci = row m)) || negb (bool_decide (tb = ct)))).
      * destruct (IH (Some (tb, row m)) {[ c := get_value m ]})
          as (e & W & P & cur' & cv' & H).
        exists e, ((ct, ci, cv) :: W), P, cur', cv'. intros t md. apply H.
      * destruct (IH (Some (tb, row m)) (<[ c := get_value m ]> cv))
          as (e & W & P & cur' & cv' & H).
        exists e, W, P, cur', cv'. intros t md. apply H.
    + destruct (IH (Some (tb, row m)) (<[ c := get_value m ]> cv))
        as (e & W & P & cur' & cv' & H).
      exists e, W, P, cur', cv'. intros t md. apply H.
Qed.

Lemma final_flush_writes (W : list (string * string * Document)) (t : Tables) md cur cv :
  final_flush {| s := apply_writes W t; metadata := md; current := cur; current_value := cv |}
  = apply_writes (W ++ final_writes cur cv) t.
Proof.
  rewrite apply_writes_app. unfold final_flush. simpl. by destruct cur as [[tb i]|].
Qed.

(** The whole method, seen from outside: an exception or not, the groups
    written at commit and the patches merged into the metadata document are
    fixed by the schema and the messages. *)
Lemma apply_changes_shape (meta : gmap string (gset string)) (msgs : list Message) :
  exists (e : option Exn) (W : list (string * string * Document)) (P : list Document),
  forall self db, _meta self = meta -> engine self = Some db ->
    apply_changes self msgs =
      match e with
      | Some x => (Raise x, set_metadata_json (apply_patches P (metadata_json self)) self)
      | None =>
        (Ok (), set_engine (Some (set_tables (apply_writes W (tables db)) db))
                  (set_metadata_json (apply_patches P (metadata_json self)) self))
      end.
Proof.
  destruct (loop_shape meta msgs None ∅) as (e & W & P & cur' & cv' & H).
  exists e, (W ++ final_writes cur' cv'), P. intros self db <- He.
  unfold apply_changes. rewrite He, H. destruct e as [x|]; [done|].
  by rewrite final_flush_writes.
Qed.

(** ** Idempotence of [apply_changes] *)

(** C2: applying the same ordered sequence of sync messages a second time
    gives the same outcome and leaves the replica in the state the first
    application left it in, for every sequence and every replica state. *)
Theorem apply_changes_idempotent (self : Actual) (msgs : list Message) :
  apply_changes (apply_changes self msgs).2 msgs = apply_changes self msgs.
Proof.
  destruct (engine self) as [db|] eqn:He.
  2:{ unfold apply_changes at 2 3. rewrite He. simpl. unfold apply_changes. by rewrite He. }
  destruct (apply_changes_shape (_meta self) msgs) as (e & W & P & H).
  rewrite (H self db eq_refl He). destruct e as [x|]; cbn [snd].
  - rewrite (H (set_metadata_json (apply_patches P (metadata_json self)) self) db
               eq_refl He).
    unfold set_metadata_json. simpl. by rewrite apply_patches_idemp.
  - rewrite (H (set_engine (Some (set_tables (apply_writes W (tables db)) db))
                  (set_metadata_json (apply_patches P (metadata_json self)) self))
               (set_tables (apply_writes W (tables db)) db) eq_refl eq_refl).
    unfold set_engine, set_metadata_json, set_tables. simpl.
    by rewrite apply_patches_idemp, apply_writes_idemp.
Qed.

(** ** Grouped application against one message at a time *)

Lemma supported_resolves meta m :
  supported meta m = true ->
  dataset m ≠ "prefs"
  /\ get_class_from_reflected_table_name meta (dataset m) = Some (dataset m)
  /\ get_attribute_from_reflected_table_name meta (dataset m) (column m) = Some (column m).
Proof.
  unfold supported, get_class_from_reflected_table_name,
    get_attribute_from_reflected_table_name.
  intros [Hp Hc]%andb_prop. apply negb_true_iff, bool_decide_eq_false in Hp.
  destruct (meta !! dataset m) as [cols|]; [|done].
  destruct (decide (column m ∈ cols)); done.
Qed.

Lemma apply_change_twice (t : Tables) tb i (v1 v2 : Document) :
  apply_change (apply_change t tb i v1) tb i v2 = apply_change t tb i (v2 ∪ v1).
Proof.
  unfold apply_change at 1. rewrite apply_change_lookup_eq. simpl.
  unfold apply_change. by rewrite insert_insert_eq, (assoc_L (∪)).
Qed.

Lemma step_supported meta st m :
  supported meta m = true -> row m ≠ "" -> group_ok st ->
  exists st', step meta st m = Ok st'
    /\ group_ok st'
    /\ metadata st' = metadata st
    /\ final_flush st' = assign (final_flush st) m.
Proof.
  intros (Hp & Ht & Hc)%supported_resolves Hrow Hok.
  unfold step. rewrite decide_False by done. rewrite Ht, Hc.
  unfold group_ok, final_flush, assign in *.
  destruct (current st) as [[ct ci]|] eqn:Hcur.
  - unfold truthy. apply String.eqb_neq in Hok as ->. cbn [negb andb].
    case_bool_decide as Hi; case_bool_decide as Htb; cbn [negb orb];
      (eexists; split; [reflexivity|]); cbn; repeat split; try done.
    subst ct ci. by rewrite apply_change_twice, <- insert_union_singleton_l.
  - eexists; split; [reflexivity|]. cbn. repeat split; try done.
    by rewrite Hok, insert_empty.
Qed.

Lemma loop_supported meta msgs st :
  Forall (fun m => supported meta m = true /\ row m ≠ "") msgs -> group_ok st ->
  exists st', loop meta msgs st = (None, st')
    /\ metadata st' = metadata st
    /\ final_flush st' = fold_left assign msgs (final_flush st).
Proof.
  intros Hall. revert st. induction Hall as [|m msgs [Hs Hr] _ IH]; intros st Hok.
  - by exists st.
  - destruct (step_supported meta st m Hs Hr Hok) as (st1 & Hstep & Hok1 & Hmd1 & Hfl1).
    destruct (IH st1 Hok1) as (st' & Hloop & Hmd & Hfl).
    exists st'. simpl. rewrite Hstep, Hloop, Hmd, Hmd1, Hfl, Hfl1. done.
Qed.

Lemma set_metadata_json_same self : set_metadata_json (metadata_json self) self = self.
Proof. by destruct self. Qed.

(** With every row id non-empty, the grouped writes of [apply_changes] come
    to the same tables as one [apply_change] per message. *)
Lemma apply_changes_assign self db msgs :
  engine self = Some db ->
  Forall (fun m => supported (_meta self) m = true /\ row m ≠ "") msgs ->
  apply_changes self msgs
  = (Ok (), set_engine (Some (set_tables (fold_left assign msgs (tables db)) db)) self).
Proof.
  intros He Hall. unfold apply_changes. rewrite He.
  edestruct (loop_supported (_meta self) msgs) as (st' & -> & Hmd & Hfl); [done|done|].
  rewrite Hmd, Hfl. simpl. by rewrite set_metadata_json_same.
Qed.

Lemma apply_individually_assign self db msgs :
  engine self = Some db ->
  Forall (fun m => supported (_meta self) m = true /\ row m ≠ "") msgs ->
  apply_individually self msgs
  = set_engine (Some (set_tables (fold_left assign msgs (tables db)) db)) self.
Proof.
  intros He Hall. revert self db He Hall.
  induction msgs as [|m msgs IH]; intros self db He Hall.
  - simpl. destruct self, db. simpl in *. by subst.
  - apply Forall_cons in Hall as [Hm Hall]. unfold apply_individually. simpl.
    rewrite (apply_changes_assign self db [m] He) by (by constructor).
    cbn [snd fold_left]. unfold apply_individually in IH.
    erewrite IH; [|reflexivity|done]. done.
Qed.

(** X6: the refinement the merge applier is after, on row ids that are not
    empty: grouping consecutive messages of one row changes nothing. *)
Lemma apply_changes_individually self db msgs :
  engine self = Some db ->
  Forall (fun m => supported (_meta self) m = true /\ row m ≠ "") msgs ->
  apply_changes self msgs = (Ok (), apply_individually self msgs).
Proof.
  intros He Hall.
  by rewrite (apply_changes_assign self db), (apply_individually_assign self db).
Qed.

Lemma assign_cell (t : Tables) m ds r c :
  cell (assign t m) ds r c
  = if assigns ds r c m then Some (get_value m) else cell t ds r c.
Proof.
  unfold cell, assign, assigns.
  destruct (decide ((dataset m, row m) = (ds, r))) as [[= <- <-]|Hk].
  - rewrite apply_change_lookup_eq, !bool_decide_eq_true_2 by done. simpl.
    case_bool_decide as Hc.
    + subst c. erewrite lookup_union_Some_l; [done|]. apply lookup_singleton_eq.
    + rewrite lookup_union_r by (by apply lookup_singleton_ne).
      by destruct (t !! (dataset m, row m)).
  - rewrite apply_change_lookup_ne by done.
    repeat case_bool_decide; try done. by subst.
Qed.

Lemma fold_assign_cell (msgs : list Message) (t : Tables) ds r c :
  cell (fold_left assign msgs t) ds r c
  = match last_assigned msgs ds r c with
    | Some v => Some v
    | None => cell t ds r c
    end.
Proof.
  unfold last_assigned. induction msgs as [|m msgs IH] using rev_ind; [done|].
  rewrite fold_left_app, rev_unit. simpl. rewrite assign_cell.
  destruct (assigns ds r c m); [done|]. apply IH.
Qed.

(** X7: on row ids that are not empty the last writer wins cell by cell: after
    [apply_changes] a cell holds the value of the last message of the whole
    sequence that assigns it, and its former value if no message does. *)
Lemma apply_changes_last_writer_wins self db msgs ds r c :
  engine self = Some db ->
  Forall (fun m => supported (_meta self) m = true /\ row m ≠ "") msgs ->
  cell (store (apply_changes self msgs).2) ds r c
  = match last_assigned msgs ds r c with
    | Some v => Some v
    | None => cell (store self) ds r c
    end.
Proof.
  intros He Hall. rewrite (apply_changes_assign self db msgs He Hall).
  unfold store. rewrite He. simpl. apply fold_assign_cell.
Qed.

(** The spec's two-message scenario: the later amount wins. *)
Example amount_scenario :
  (apply_changes example_replica amount_messages).1 = Ok ()
  /\ store (apply_changes example_replica amount_messages).2 !! ("transactions", "A")
       ≫= (.!! "amount") = Some (VInt 200)
  /\ store (apply_individually example_replica amount_messages) !! ("transactions", "A")
       ≫= (.!! "amount") = Some (VInt 200).
Proof. vm_compute. done. Qed.

(** C1: the grouped application is meant to equal applying every message on
    its own, and it does not when a row id is the empty string: on two
    supported messages, the first on row [""], the group of row [""] is never
    written and its amount lands on row ["B"], while message-by-message
    application writes the amount to row [""] and leaves row ["B"] without
    one. *)
Theorem apply_changes_empty_row_diverges :
  forallb (supported example_schema) empty_row_messages = true
  /\ (apply_changes example_replica empty_row_messages).1 = Ok ()
  /\ store (apply_changes example_replica empty_row_messages).2 !! ("transactions", "") = None
  /\ store (apply_individually example_replica empty_row_messages) !! ("transactions", "")
       ≫= (.!! "amount") = Some (VInt 100)
  /\ store (apply_changes example_replica empty_row_messages).2 !! ("transactions", "B")
       ≫= (.!! "amount") = Some (VInt 100)
  /\ store (apply_individually example_replica empty_row_messages) !! ("transactions", "B")
       ≫= (.!! "amount") = None.
Proof. vm_compute. done. Qed.

(** ** Unknown tables and columns *)

Lemma loop_app meta l1 l2 st :
  loop meta (l1 ++ l2) st =
    match loop meta l1 st with
    | (None, st1) => loop meta l2 st1
    | (Some e, st1) => (Some e, st1)
    end.
Proof.
  revert st. induction l1 as [|m l1 IH]; intros st; simpl; [done|].
  destruct (step meta st m); [apply IH|done].
Qed.

Lemma step_raise_ActualError meta st m e :
  step meta st m = Raise e -> exists msg, e = ActualError msg.
Proof.
  unfold step, table_not_found, column_not_found.
  repeat (case_match; try done); intros [= <-]; eauto.
Qed.

Lemma loop_raise_ActualError meta msgs st e st' :
  loop meta msgs st = (Some e, st') -> exists msg, e = ActualError msg.
Proof.
  revert st. induction msgs as [|m msgs IH]; intros st; simpl; [done|].
  destruct (step meta st m) as [st1|x] eqn:Hs; [apply IH|].
  intros [= <- _]. by eapply step_raise_ActualError.
Qed.

Lemma step_unknown meta st m :
  dataset m ≠ "prefs" -> unknown meta m -> exists e, step meta st m = Raise e.
Proof.
  intros Hp Hu. unfold step. rewrite decide_False by done.
  destruct (get_class_from_reflected_table_name meta (dataset m)) as [tb|] eqn:Ht; [|eauto].
  destruct Hu as [Hu|Hu]; [congruence|]. rewrite Hu. eauto.
Qed.

Lemma loop_unknown meta pre m post st :
  dataset m ≠ "prefs" -> unknown meta m ->
  exists msg,
    loop meta (pre ++ m :: post) st = (Some (ActualError msg), (loop meta pre st).2)
    /\ loop meta (pre ++ [m]) st = (Some (ActualError msg), (loop meta pre st).2).
Proof.
  intros Hp Hu. rewrite !loop_app.
  destruct (loop meta pre st) as [[x|] st1] eqn:Hpre.
  - destruct (loop_raise_ActualError _ _ _ _ _ Hpre) as [msg ->]. by exists msg.
  - destruct (step_unknown meta st1 m Hp Hu) as [e He].
    destruct (step_raise_ActualError _ _ _ _ He) as [msg ->].
    exists msg. simpl. by rewrite He.
Qed.

Lemma apply_changes_metadata self db msgs :
  engine self = Some db ->
  metadata_json (apply_changes self msgs).2
  = metadata (loop (_meta self) msgs
                {| s := tables db; metadata := metadata_json self;
                   current := None; current_value := ∅ |}).2.
Proof.
  intros He. unfold apply_changes. rewrite He.
  by destruct (loop _ _ _) as [[x|] st].
Qed.

(** C3, amended: with a file loaded, a batch holding a message that is not a
    preference and whose table or column the schema does not know makes
    [apply_changes] raise [ActualError]; nothing after that message is
    applied (the outcome is that of the batch cut after it), the relational
    store and every other field of the replica stay as they were, and the
    metadata document is the one the messages before it produced. *)
Theorem apply_changes_unknown_raises self db pre m post :
  engine self = Some db ->
  dataset m ≠ "prefs" ->
  unknown (_meta self) m ->
  exists msg,
    apply_changes self (pre ++ m :: post)
    = (Raise (ActualError msg),
       set_metadata_json (metadata_json (apply_changes self pre).2) self)
    /\ apply_changes self (pre ++ m :: post) = apply_changes self (pre ++ [m])
    /\ engine (apply_changes self (pre ++ m :: post)).2 = Some db.
Proof.
  intros He Hp Hu.
  rewrite (apply_changes_metadata self db pre He).
  unfold apply_changes. rewrite He.
  edestruct (loop_unknown (_meta self) pre m post) as (msg & -> & ->); [done..|].
  by exists msg.
Qed.

Lemma apply_changes_unknown_raises_witness :
  exists msg,
    apply_changes example_replica ([prefs_message] ++ unknown_table_message :: amount_messages)
    = (Raise (ActualError msg),
       set_metadata_json (metadata_json (apply_changes example_replica [prefs_message]).2)
         example_replica)
    /\ apply_changes example_replica ([prefs_message] ++ unknown_table_message :: amount_messages)
       = apply_changes example_replica ([prefs_message] ++ [unknown_table_message])
    /\ engine (apply_changes example_replica
                 ([prefs_message] ++ unknown_table_message :: amount_messages)).2
       = Some {| tables := ∅; messages_clock := None |}.
Proof.
  apply (apply_changes_unknown_raises example_replica
           {| tables := ∅; messages_clock := None |}
           [prefs_message] unknown_table_message amount_messages).
  - reflexivity.
  - vm_compute. discriminate.
  - left. vm_compute. reflexivity.
Defined.

(** A preference message is a message whose dataset has no table in the
    schema, and [apply_changes] returns normally on it. *)
Lemma prefs_without_table_not_raised :
  get_class_from_reflected_table_name (_meta example_replica) (dataset prefs_message) = None
  /\ (apply_changes example_replica [prefs_message]).1 = Ok ().
Proof. vm_compute. done. Qed.

(** ** Preferences *)

Lemma step_same_group meta st st' m :
  same_group st st' ->
  match step meta st m, step meta st' m with
  | Ok st1, Ok st1' => same_group st1 st1'
  | Raise e, Raise e' => e = e'
  | _, _ => False
  end.
Proof.
  intros (Hs & Hc & Hv). unfold step. rewrite Hs, Hc, Hv.
  repeat (case_match; try done); simplify_eq; unfold same_group; simpl; done.
Qed.

Lemma loop_same_group meta msgs st st' :
  same_group st st' ->
  (loop meta msgs st).1 = (loop meta msgs st').1
  /\ same_group (loop meta msgs st).2 (loop meta msgs st').2.
Proof.
  revert st st'. induction msgs as [|m msgs IH]; intros st st' Hsim; simpl; [done|].
  pose proof (step_same_group meta st st' m Hsim) as Hstep.
  destruct (step meta st m), (step meta st' m); try done.
  - by apply IH.
  - by subst.
Qed.

Lemma step_prefs meta st m :
  dataset m = "prefs" ->
  step meta st m
  = Ok {| s := s st;
          metadata := update_metadata (metadata st) {[ row m := get_value m ]};
          current := current st;
          current_value := current_value st |}.
Proof. intros Hp. unfold step. by rewrite decide_True. Qed.

(** C5: a message of dataset "prefs" never touches the relational store:
    with or without it the batch has the same outcome and leaves the same
    database.  When the batch reaches it (a file is loaded and the messages
    before it apply), the metadata document afterwards is the previous one
    with the key named by the message's row set to the message's value, the
    other keys being kept. *)
Theorem prefs_routed_to_metadata self db pre m post :
  engine self = Some db ->
  dataset m = "prefs" ->
  (apply_changes self pre).1 = Ok () ->
  (apply_changes self (pre ++ m :: post)).1 = (apply_changes self (pre ++ post)).1
  /\ engine (apply_changes self (pre ++ m :: post)).2
     = engine (apply_changes self (pre ++ post)).2
  /\ metadata_json (apply_changes self (pre ++ [m])).2
     = Some (<[ row m := get_value m ]>
               (default ∅ (metadata_json (apply_changes self pre).2))).
Proof.
  intros He Hp Hpre.
  rewrite !(apply_changes_metadata self db) by done.
  revert Hpre. unfold apply_changes. rewrite He, !loop_app.
  destruct (loop (_meta self) pre _) as [[x|] st1]; [done|]. intros _.
  cbn [loop]. rewrite (step_prefs _ _ _ Hp).
  destruct (loop_same_group (_meta self) post
              {| s := s st1;
                 metadata := update_metadata (metadata st1) {[ row m := get_value m ]};
                 current := current st1; current_value := current_value st1 |} st1)
    as (H1 & H2 & H3 & H4); [done|].
  destruct (loop (_meta self) post _) as [[x|] st2],
           (loop (_meta self) post st1) as [[x'|] st2']; simpl in *; try done.
  - split; [congruence|]. split; [done|].
    by rewrite update_metadata_union, insert_union_singleton_l.
  - unfold final_flush. rewrite H2, H3, H4. split; [done|]. split; [done|].
    by rewrite update_metadata_union, insert_union_singleton_l.
Qed.

Lemma prefs_routed_to_metadata_witness :
  (apply_changes example_replica (amount_messages ++ prefs_message :: amount_messages)).1
  = (apply_changes example_replica (amount_messages ++ amount_messages)).1
  /\ engine (apply_changes example_replica
               (amount_messages ++ prefs_message :: amount_messages)).2
     = engine (apply_changes example_replica (amount_messages ++ amount_messages)).2
  /\ metadata_json (apply_changes example_replica (amount_messages ++ [prefs_message])).2
     = Some (<[ row prefs_message := get_value prefs_message ]>
               (default ∅ (metadata_json (apply_changes example_replica amount_messages).2))).
Proof.
  apply (prefs_routed_to_metadata example_replica
           {| tables := ∅; messages_clock := None |}
           amount_messages prefs_message amount_messages).
  - reflexivity.
  - reflexivity.
  - vm_compute. reflexivity.
Defined.

(** ** Sync rounds and the replica clock *)

Lemma apply_changes_frame self msgs :
  _file (apply_changes self msgs).2 = _file self
  /\ _client (apply_changes self msgs).2 = _client self
  /\ _session (apply_changes self msgs).2 = _session self
  /\ _master_key (apply_changes self msgs).2 = _master_key self
  /\ relay (apply_changes self msgs).2 = relay self
  /\ _meta (apply_changes self msgs).2 = _meta self
  /\ messages_clock <$> engine (apply_changes self msgs).2 = messages_clock <$> engine self.
Proof.
  unfold apply_changes. destruct (engine self) as [db|] eqn:He; [|simpl; by rewrite He].
  destruct (loop _ _ _) as [[x|] st]; simpl; by rewrite ?He.
Qed.

Lemma apply_changes_set_relay r self msgs :
  apply_changes (set_relay r self) msgs
  = ((apply_changes self msgs).1, set_relay r (apply_changes self msgs).2).
Proof.
  unfold apply_changes. simpl. destruct (engine self) as [db|]; [|done].
  by destruct (loop _ _ _) as [[x|] st].
Qed.

Lemma ascending_cons e1 e2 rest :
  ascending (e1 :: e2 :: rest)
  = ts_leb (timestamp e1) (timestamp e2) && ascending (e2 :: rest).
Proof. reflexivity. Qed.

Lemma last_cons_default {A} (l : list A) (a d d' : A) :
  List.last (a :: l) d = List.last (a :: l) d'.
Proof.
  revert a. induction l as [|b l IH]; intros a; [done|].
  change (List.last (b :: l) d = List.last (b :: l) d'). apply IH.
Qed.

Lemma max_timestamp_ascending first rest :
  ascending (first :: rest) = true ->
  max_timestamp (first :: rest) = Some (timestamp (List.last rest first)).
Proof.
  unfold max_timestamp. revert first.
  induction rest as [|e rest IH]; intros first Hasc; [done|].
  rewrite ascending_cons in Hasc. apply andb_prop in Hasc as [Hle Hasc].
  cbn [map fold_left].
  replace (ts_max (timestamp first) (timestamp e)) with (timestamp e)
    by (unfold ts_max; by rewrite Hle).
  rewrite (IH e Hasc). destruct rest as [|r rest]; [done|].
  f_equal. f_equal. change (List.last (e :: r :: rest) first) with (List.last (r :: rest) first).
  apply last_cons_default.
Qed.

(** C4, amended: after a sync round that receives a non-empty backlog and
    applies it, the client clock the replica holds is the one read off the
    timestamp of the last message of the backlog; that timestamp is the
    maximum observed one when the backlog is in ascending timestamp order.
    No receive-rule merge with the local clock takes place. *)
Theorem sync_clock_from_last_message self file client changes msgs first rest :
  _file self = Some file ->
  _client self = Some client ->
  get_messages changes (_master_key self) = Ok msgs ->
  (apply_changes self msgs).1 = Ok () ->
  messages changes = first :: rest ->
  (sync self changes).1 = Ok ()
  /\ _client (sync self changes).2 = Some (from_timestamp (timestamp (List.last rest first)))
  /\ (ascending (messages changes) = true ->
      max_timestamp (messages changes) = Some (timestamp (List.last rest first))).
Proof.
  intros Hf Hc Hg Hok Hm. unfold sync. rewrite Hf, Hc. cbn [_master_key set_relay].
  rewrite Hg, apply_changes_set_relay, Hm.
  destruct (apply_changes self msgs) as [[[]|e] self2]; [|done].
  simpl. repeat split. apply max_timestamp_ascending.
Qed.

Lemma sync_clock_from_last_message_witness :
  (sync synced_replica ordered_backlog).1 = Ok ()
  /\ _client (sync synced_replica ordered_backlog).2 = Some (from_timestamp (stamp 2000))
  /\ (ascending (messages ordered_backlog) = true ->
      max_timestamp (messages ordered_backlog) = Some (stamp 2000)).
Proof.
  apply (sync_clock_from_last_message synced_replica example_file example_client
           ordered_backlog (map snd
             [ (stamp 1000, {| dataset := "transactions"; row := "A"; column := "notes";
                               value := VStr "x" |});
               (stamp 2000, {| dataset := "transactions"; row := "A"; column := "amount";
                               value := VInt 200 |}) ])
           {| timestamp := stamp 1000; is_encrypted := false; content := [] |}
           [ {| timestamp := stamp 2000; is_encrypted := false; content := [] |} ]).
  - reflexivity.
  - reflexivity.
  - reflexivity.
  - vm_compute. reflexivity.
  - reflexivity.
Defined.

(** On a backlog delivered out of order, with a maximum timestamp of 2000
    that is not the last one, the round ends normally with the client clock
    of the last message and with the clock the database had before; neither
    of the two is the receive rule applied to the maximum, under any wall
    clock. *)
Lemma sync_clock_not_receive_of_max :
  (sync synced_replica unordered_backlog).1 = Ok ()
  /\ max_timestamp (messages unordered_backlog) = Some (stamp 2000)
  /\ _client (sync synced_replica unordered_backlog).2
     = Some (from_timestamp (stamp 1000))
  /\ messages_clock <$> engine (sync synced_replica unordered_backlog).2
     = Some (Some example_client)
  /\ ~ (exists now,
         messages_clock <$> engine (sync synced_replica unordered_backlog).2
         = Some (Some (spec_receive example_client (stamp 2000) now)))
  /\ ~ (exists now,
         _client (sync synced_replica unordered_backlog).2
         = Some (spec_receive example_client (stamp 2000) now)).
Proof.
  assert (Hdb : messages_clock <$> engine (sync synced_replica unordered_backlog).2
                = Some (Some example_client)) by (by vm_compute).
  assert (Hcl : _client (sync synced_replica unordered_backlog).2
                = Some (from_timestamp (stamp 1000))) by (by vm_compute).
  split; [by vm_compute|]. split; [by vm_compute|]. split; [done|]. split; [done|].
  split; intros [now H].
  - rewrite Hdb in H.
    assert (Hts : ts example_client = ts (spec_receive example_client (stamp 2000) now))
      by congruence.
    simpl in Hts. lia.
  - rewrite Hcl in H.
    assert (Hts : ts (from_timestamp (stamp 1000))
                  = ts (spec_receive example_client (stamp 2000) now)) by congruence.
    simpl in Hts. lia.
Qed.

(** C10: a sync round whose response holds no messages leaves the replica
    clock as it was, in memory and in the database, whatever else the round
    does; so a changed clock means a non-empty backlog. *)
Theorem sync_empty_backlog_keeps_clock self changes :
  messages changes = [] ->
  _client (sync self changes).2 = _client self
  /\ messages_clock <$> engine (sync self changes).2 = messages_clock <$> engine self.
Proof.
  intros Hm. unfold sync.
  destruct (_file self) as [file|]; [|done].
  destruct (_client self) as [client|] eqn:Hc; [|done].
  destruct (get_messages changes _) as [msgs|e]; [|done].
  rewrite apply_changes_set_relay, Hm.
  destruct (apply_changes_frame self msgs) as (_ & Hcl & _ & _ & _ & _ & Hclock).
  destruct (apply_changes self msgs) as [[[]|e] self2]; simpl in *; by rewrite Hcl, Hclock.
Qed.

Lemma sync_empty_backlog_keeps_clock_witness :
  _client (sync synced_replica empty_backlog).2 = _client synced_replica
  /\ messages_clock <$> engine (sync synced_replica empty_backlog).2
     = messages_clock <$> engine synced_replica.
Proof. apply (sync_empty_backlog_keeps_clock synced_replica empty_backlog). reflexivity. Defined.

(** ** Commit without a group id *)

(** C8: with a session open on a loaded file whose group id is [None],
    [commit] returns normally, commits the pending rows to the local
    database and discards the change buffer, and transmits nothing: the
    requests handed to the relay are those handed before.  The client clock
    is the one [set_messages] leaves when there is a change buffer, and the
    one before otherwise. *)
Theorem commit_without_group_id_is_local set_messages self session file client :
  _session self = Some session ->
  _file self = Some file ->
  _client self = Some client ->
  group_id file = None ->
  commit set_messages self
  = (Ok (),
     session_commit
       (set_client
          (Some match info_messages session with
                | Some msgs =>
                  (set_messages (commit_request file client) msgs client
                     (_master_key self)).2
                | None => client
                end) self) session)
  /\ relay (commit set_messages self).2 = relay self
  /\ tables <$> engine (commit set_messages self).2
     = apply_writes (pending session) <$> (tables <$> engine self).
Proof.
  intros Hs Hf Hc Hg. unfold commit. rewrite Hs, Hf, Hc, Hg.
  destruct (info_messages session) as [msgs|];
    [destruct (set_messages _ _ _ _) as [req client']|];
    simpl; repeat split; by destruct (engine self).
Qed.

Lemma commit_without_group_id_is_local_witness :
  commit stamp_messages unregistered_replica
  = (Ok (),
     session_commit
       (set_client
          (Some match info_messages example_session with
                | Some msgs =>
                  (stamp_messages
                     (commit_request
                        {| file_id := "file-2"; file_name := "Draft"; group_id := None;
                           encrypt_key_id := None |} example_client)
                     msgs example_client (_master_key unregistered_replica)).2
                | None => example_client
                end) unregistered_replica) example_session)
  /\ relay (commit stamp_messages unregistered_replica).2 = relay unregistered_replica
  /\ tables <$> engine (commit stamp_messages unregistered_replica).2
     = apply_writes (pending example_session) <$> (tables <$> engine unregistered_replica).
Proof.
  apply (commit_without_group_id_is_local stamp_messages unregistered_replica
           example_session
           {| file_id := "file-2"; file_name := "Draft"; group_id := None;
              encrypt_key_id := None |}
           example_client); reflexivity.
Defined.

(** The same commit, by its values: nothing is sent, the row is written, the
    buffer is gone, and the one message of the buffer has moved the counter
    of the client clock from 0 to 1. *)
Example commit_without_group_id_values :
  let after := (commit stamp_messages unregistered_replica).2 in
  relay after = []
  /\ cell (store after) "transactions" "A" "amount" = Some (VInt 100)
  /\ _session after = Some {| pending := []; info_messages := None |}
  /\ initial_count <$> _client unregistered_replica = Some 0%Z
  /\ initial_count <$> _client after = Some 1%Z.
Proof. vm_compute. done. Qed.

(** With a group id the same commit does transmit one request. *)
Example commit_with_group_id_sends :
  length (relay (commit stamp_messages
                   (set_session (Some example_session) synced_replica)).2) = 1.
Proof. vm_compute. reflexivity. Qed.

(** ** The master key of an encrypted file *)

(** C7, amended: for a file with an encryption key id,
    [download_master_encryption_key] raises [ActualDecryptionError] and
    changes nothing when no password is given ([None]); given any password,
    the empty string included, it derives the key with [create_key_buffer]
    from that password and the registered salt, keeps it as the master key
    and returns it. *)
Theorem download_master_encryption_key_encrypted create_key_buffer user_get_key self file :
  _file self = Some file ->
  truthy (encrypt_key_id file) = true ->
  download_master_encryption_key create_key_buffer user_get_key self None
  = (Raise (ActualDecryptionError
              "File is encrypted but no encryption password was provided."), self)
  /\ forall password,
       download_master_encryption_key create_key_buffer user_get_key self (Some password)
       = (Ok (Some (create_key_buffer password (user_get_key (file_id file)))),
          set_master_key (Some (create_key_buffer password (user_get_key (file_id file))))
            self).
Proof.
  intros Hf Hk. unfold download_master_encryption_key. rewrite Hf, Hk. simpl.
  split; [done|]. by intros password.
Qed.

Lemma download_master_encryption_key_encrypted_witness :
  download_master_encryption_key (fun _ _ => []) (fun _ => "salt") encrypted_replica None
  = (Raise (ActualDecryptionError
              "File is encrypted but no encryption password was provided."),
     encrypted_replica)
  /\ forall password,
       download_master_encryption_key (fun _ _ => []) (fun _ => "salt") encrypted_replica
         (Some password)
       = (Ok (Some []), set_master_key (Some []) encrypted_replica).
Proof.
  apply (download_master_encryption_key_encrypted (fun _ _ => []) (fun _ => "salt")
           encrypted_replica encrypted_file); reflexivity.
Defined.

(** On an encrypted file the empty password does not make the key derivation
    fail: the key derived from it is returned. *)
Lemma empty_password_derives_key :
  ~ (forall create_key_buffer user_get_key,
       exists e,
         (download_master_encryption_key create_key_buffer user_get_key
            encrypted_replica (Some "")).1 = Raise e).
Proof.
  intros H. destruct (H (fun _ _ => []) (fun _ => "salt")) as [e He].
  vm_compute in He. discriminate.
Qed.

(** ** Bank sync: the starting balance and unsettled transactions *)

Section BankSyncFacts.

Variable reconcile_transaction :
  Ledger -> Z -> Accounts -> string -> option string -> Z -> string -> bool -> string ->
  list Transactions -> Transactions * Ledger.

Lemma reconcile_all_booked session acct reversed imported :
  reconcile_all reconcile_transaction session acct reversed imported
  = reconcile_all reconcile_transaction session acct (List.filter booked reversed) imported.
Proof.
  revert session imported.
  induction reversed as [|t rest IH]; intros session imported; [done|].
  cbn [reconcile_all List.filter]. destruct (booked t) eqn:Hb; cbn [negb]; [|apply IH].
  cbn [reconcile_all]. rewrite Hb. cbn [negb].
  destruct (reconcile_transaction _ _ _ _ _ _ _ _ _ _) as [r session1].
  destruct (changed r); apply IH.
Qed.

Lemma reconcile_all_extends session acct reversed imported :
  exists rest,
    (reconcile_all reconcile_transaction session acct reversed imported).1
    = imported ++ rest.
Proof.
  revert session imported.
  induction reversed as [|t l IH]; intros session imported.
  - exists []. simpl. by rewrite app_nil_r.
  - cbn [reconcile_all]. destruct (negb (booked t)); [apply IH|].
    destruct (reconcile_transaction _ _ _ _ _ _ _ _ _ _) as [r session1].
    destruct (changed r); [|apply IH].
    destruct (IH session1 (imported ++ [r])) as [rest Hrest].
    exists (r :: rest). by rewrite Hrest, <- app_assoc.
Qed.

End BankSyncFacts.

Lemma flag_last_created_app l p t :
  flag_last_created {| ledger_transactions := l ++ [t]; ledger_payees := p |}
  = {| ledger_transactions := l ++ [set_starting_balance_flag t]; ledger_payees := p |}.
Proof.
  unfold flag_last_created. simpl. f_equal.
  rewrite length_app. simpl.
  replace (length l + 1 - 1) with (length l + 0) by lia.
  by rewrite alter_app_r.
Qed.

Lemma descending_last (l : list TransactionItem) t :
  descending l = true -> last l = Some t -> Forall (fun x => (date t <= date x)%Z) l.
Proof.
  induction l as [|a l IH]; intros Hd Hl; [done|].
  destruct l as [|b l].
  - simpl in Hl. injection Hl as ->. constructor; [lia|done].
  - change (descending (a :: b :: l)) with ((date b <=? date a)%Z && descending (b :: l))
      in Hd.
    apply andb_prop in Hd as [Hba Hd]. apply Z.leb_le in Hba.
    change (last (a :: b :: l)) with (last (b :: l)) in Hl.
    specialize (IH Hd Hl). constructor; [|done].
    apply Forall_cons in IH as [Hb _]. lia.
Qed.

(** C6, amended: on a first bank sync whose balance to use is not zero (the
    reported balance, and for a SimpleFin account the reported balance less
    the amounts of all fetched transactions), exactly one balancing
    transaction is created, ahead of every reconciled one: it carries the
    starting-balance flag and that balance as its amount, is cleared, has the
    payee "Starting Balance" unless the account is off-budget, is dated
    today when the feed is empty, and when the feed comes newest first is
    dated at the date of its last transaction, the oldest of the feed. *)
Theorem first_sync_starting_balance_entry reconcile_transaction bank_sync_transactions today
    session acct start_date sync_method requisition_id balance new_transactions :
  account_sync_source acct = Some sync_method ->
  requisition_id_of acct sync_method = Ok requisition_id ->
  bank_sync_transactions (lower sync_method) (account_id acct) start_date requisition_id
    = BankSyncTransactionData balance new_transactions ->
  balance_to_use acct balance new_transactions ≠ 0%Z ->
  exists entry rest,
    (_run_bank_sync_account reconcile_transaction bank_sync_transactions today
       session acct start_date true).1 = Ok (entry :: rest)
    /\ (first_sync_starting_balance today session acct balance new_transactions).1 = [entry]
    /\ ledger_transactions
         (first_sync_starting_balance today session acct balance new_transactions).2
       = ledger_transactions session ++ [entry]
    /\ starting_balance_flag entry = 1%Z
    /\ tx_amount entry = balance_to_use acct balance new_transactions
    /\ tx_cleared entry = true
    /\ tx_payee entry = starting_balance_payee acct
    /\ (new_transactions = [] -> tx_date entry = today)
    /\ (descending new_transactions = true ->
        forall oldest, last new_transactions = Some oldest ->
        tx_date entry = date oldest
        /\ Forall (fun t => (date oldest <= date t)%Z) new_transactions).
Proof.
  intros Hsrc Hreq Hfeed Hbal.
  set (d := match last new_transactions with Some t => date t | None => today end).
  exists {| tx_date := d; tx_acct := Accounts_id acct;
            tx_payee := starting_balance_payee acct; tx_notes := None;
            tx_amount := balance_to_use acct balance new_transactions;
            tx_cleared := true; tx_imported_id := None; starting_balance_flag := 1;
            changed := true |}.
  assert (Hblock :
    first_sync_starting_balance today session acct balance new_transactions
    = ([ {| tx_date := d; tx_acct := Accounts_id acct;
            tx_payee := starting_balance_payee acct; tx_notes := None;
            tx_amount := balance_to_use acct balance new_transactions;
            tx_cleared := true; tx_imported_id := None; starting_balance_flag := 1;
            changed := true |} ],
       {| ledger_transactions :=
            ledger_transactions session
            ++ [ {| tx_date := d; tx_acct := Accounts_id acct;
                    tx_payee := starting_balance_payee acct; tx_notes := None;
                    tx_amount := balance_to_use acct balance new_transactions;
                    tx_cleared := true; tx_imported_id := None;
                    starting_balance_flag := 1; changed := true |} ];
          ledger_payees :=
            if offbudget acct then ledger_payees session
            else (get_or_create_payee session "Starting Balance").2.(ledger_payees) |})).
  { unfold first_sync_starting_balance, starting_balance_payee.
    apply Z.eqb_neq in Hbal. rewrite Hbal. fold d.
    destruct (offbudget acct).
    - unfold create_transaction. by rewrite flag_last_created_app.
    - unfold get_or_create_payee. case_bool_decide;
        unfold create_transaction; simpl; by rewrite flag_last_created_app. }
  destruct (reconcile_all_extends reconcile_transaction
              (first_sync_starting_balance today session acct balance new_transactions).2
              acct (rev new_transactions)
              (first_sync_starting_balance today session acct balance new_transactions).1)
    as [rest Hrest].
  exists rest. split.
  { unfold _run_bank_sync_account. rewrite Hsrc, Hreq, Hfeed.
    destruct (first_sync_starting_balance _ _ _ _ _) as [imported session1].
    simpl in Hrest. injection Hblock as -> _.
    destruct (reconcile_all _ _ _ _ _) as [imp session2]. simpl in *. by rewrite Hrest. }
  rewrite Hblock. simpl. do 6 (split; [done|]). split.
  - intros ->. done.
  - intros Hdesc oldest Hlast. subst d. rewrite Hlast.
    split; [done|]. by apply descending_last.
Qed.

Lemma first_sync_starting_balance_entry_witness :
  exists entry rest,
    (_run_bank_sync_account reconcile_by_imported_id scenario_feed 20010
       empty_ledger simplefin_account 19920 true).1 = Ok (entry :: rest)
    /\ (first_sync_starting_balance 20010 empty_ledger simplefin_account 5000
          [booked_item]).1 = [entry]
    /\ ledger_transactions
         (first_sync_starting_balance 20010 empty_ledger simplefin_account 5000
            [booked_item]).2
       = ledger_transactions empty_ledger ++ [entry]
    /\ starting_balance_flag entry = 1%Z
    /\ tx_amount entry = balance_to_use simplefin_account 5000 [booked_item]
    /\ tx_cleared entry = true
    /\ tx_payee entry = starting_balance_payee simplefin_account
    /\ ([booked_item] = [] -> tx_date entry = 20010%Z)
    /\ (descending [booked_item] = true ->
        forall oldest, last [booked_item] = Some oldest ->
        tx_date entry = date oldest
        /\ Forall (fun t => (date oldest <= date t)%Z) [booked_item]).
Proof.
  apply (first_sync_starting_balance_entry reconcile_by_imported_id scenario_feed 20010
           empty_ledger simplefin_account 19920 "simpleFin" None 5000 [booked_item]).
  - reflexivity.
  - reflexivity.
  - reflexivity.
  - vm_compute. discriminate.
Defined.

(** The reconciliation scenario on a SimpleFin account: a starting balance
    of 6200 dated at the transaction's date, then the transaction of -1200;
    a second run on the resulting session imports nothing. *)
Example simplefin_scenario :
  match _run_bank_sync_account reconcile_by_imported_id scenario_feed 20010
          empty_ledger simplefin_account 19920 true with
  | (Ok imported, session) =>
    map tx_amount imported = [6200; -1200]%Z
    /\ map tx_date imported = [20000; 20000]%Z
    /\ map starting_balance_flag imported = [1; 0]%Z
    /\ (_run_bank_sync_account reconcile_by_imported_id scenario_feed 20010
          session simplefin_account 20000 false) = (Ok [], session)
  | (Raise _, _) => False
  end.
Proof. vm_compute. done. Qed.

(** The same scenario on an account that is not a SimpleFin one: the
    starting balance is the reported 5000, not 6200. *)
Lemma starting_balance_is_reported_balance :
  map tx_amount
    (first_sync_starting_balance 20010 empty_ledger gocardless_account 5000 [booked_item]).1
  = [5000%Z]
  /\ map starting_balance_flag
       (first_sync_starting_balance 20010 empty_ledger gocardless_account 5000
          [booked_item]).1
     = [1%Z]
  /\ match (_run_bank_sync_account reconcile_by_imported_id scenario_feed 20010
              empty_ledger gocardless_account 19920 true).1 with
     | Ok imported => map tx_amount imported = [5000; -1200]%Z
     | Raise _ => False
     end.
Proof. vm_compute. done. Qed.

Lemma filter_booked_rev_unbooked (l : list TransactionItem) :
  forallb (fun t => negb (booked t)) l = true -> List.filter booked (rev l) = [].
Proof.
  induction l as [|t l IH]; [done|]. simpl.
  intros [Hb Hl]%andb_prop. apply negb_true_iff in Hb.
  rewrite List.filter_app, (IH Hl). simpl. by rewrite Hb.
Qed.

(** C9: [reconcile_transaction] is called for the settled transactions of
    the feed only: whatever the session, first sync or not, the run is the
    run whose loop goes over the booked transactions; and a later sync of a
    feed of unsettled transactions returns no entity and leaves the session
    as it was. *)
Theorem unbooked_never_imported reconcile_transaction bank_sync_transactions today
    session acct start_date is_first_sync sync_method requisition_id balance new_transactions :
  account_sync_source acct = Some sync_method ->
  requisition_id_of acct sync_method = Ok requisition_id ->
  bank_sync_transactions (lower sync_method) (account_id acct) start_date requisition_id
    = BankSyncTransactionData balance new_transactions ->
  _run_bank_sync_account reconcile_transaction bank_sync_transactions today
    session acct start_date is_first_sync
  = (let '(imported, session1) :=
       if is_first_sync
       then first_sync_starting_balance today session acct balance new_transactions
       else ([], session) in
     let '(imported, session2) :=
       reconcile_all reconcile_transaction session1 acct
         (List.filter booked (rev new_transactions)) imported in
     (Ok imported, session2))
  /\ (is_first_sync = false ->
      forallb (fun t => negb (booked t)) new_transactions = true ->
      _run_bank_sync_account reconcile_transaction bank_sync_transactions today
        session acct start_date is_first_sync = (Ok [], session)).
Proof.
  intros Hsrc Hreq Hfeed.
  assert (Hrun :
    _run_bank_sync_account reconcile_transaction bank_sync_transactions today
      session acct start_date is_first_sync
    = (let '(imported, session1) :=
         if is_first_sync
         then first_sync_starting_balance today session acct balance new_transactions
         else ([], session) in
       let '(imported, session2) :=
         reconcile_all reconcile_transaction session1 acct
           (List.filter booked (rev new_transactions)) imported in
       (Ok imported, session2))).
  { unfold _run_bank_sync_account. rewrite Hsrc, Hreq, Hfeed.
    destruct (if is_first_sync then _ else _) as [imported session1].
    by rewrite reconcile_all_booked. }
  split; [done|]. intros -> Hall. rewrite Hrun.
  by rewrite filter_booked_rev_unbooked.
Qed.

Lemma unbooked_never_imported_witness :
  _run_bank_sync_account reconcile_by_imported_id pending_feed 20010
    empty_ledger simplefin_account 19920 false
  = (let '(imported, session1) :=
       if false
       then first_sync_starting_balance 20010 empty_ledger simplefin_account 5000
              [pending_item]
       else ([], empty_ledger) in
     let '(imported, session2) :=
       reconcile_all reconcile_by_imported_id session1 simplefin_account
         (List.filter booked (rev [pending_item])) imported in
     (Ok imported, session2))
  /\ (false = false ->
      forallb (fun t => negb (booked t)) [pending_item] = true ->
      _run_bank_sync_account reconcile_by_imported_id pending_feed 20010
        empty_ledger simplefin_account 19920 false = (Ok [], empty_ledger)).
Proof.
  apply (unbooked_never_imported reconcile_by_imported_id pending_feed 20010
           empty_ledger simplefin_account 19920 false "simpleFin" None 5000 [pending_item]).
  - reflexivity.
  - reflexivity.
  - reflexivity.
Defined.

(** An unsettled transaction next to a settled one, on a first sync and on
    the sync after it: only the settled one is ever imported. *)
Example pending_item_skipped :
  match _run_bank_sync_account reconcile_by_imported_id
          (fun _ _ _ _ => BankSyncTransactionData 0 [pending_item; booked_item]) 20010
          empty_ledger gocardless_account 19920 true with
  | (Ok imported, session) =>
    map tx_imported_id imported = [Some "ext-tx-1"]
    /\ map tx_imported_id (ledger_transactions session) = [Some "ext-tx-1"]
    /\ (_run_bank_sync_account reconcile_by_imported_id
          (fun _ _ _ _ => BankSyncTransactionData 0 [pending_item; booked_item]) 20010
          session gocardless_account 20000 false) = (Ok [], session)
  | (Raise _, _) => False
  end.
Proof. vm_compute. done. Qed.

(** * Further properties *)

(** ** [apply_changes]: outcome, frame and batching *)

Lemma step_ok_supported meta st st' m :
  step meta st m = Ok st' -> dataset m = "prefs" \/ supported meta m = true.
Proof.
  unfold step, supported. destruct (decide (dataset m = "prefs")) as [Hp|Hp]; [by left|].
  rewrite bool_decide_eq_false_2 by done. cbn [negb andb].
  destruct (get_class_from_reflected_table_name meta (dataset m)); [|done].
  destruct (get_attribute_from_reflected_table_name meta (dataset m) (column m)); [|done].
  by right.
Qed.

Lemma loop_ok_supported meta msgs st :
  (loop meta msgs st).1 = None ->
  Forall (fun m => dataset m = "prefs" \/ supported meta m = true) msgs.
Proof.
  revert st. induction msgs as [|m msgs IH]; intros st; simpl; [done|].
  destruct (step meta st m) as [st1|e] eqn:Hs; [|done].
  intros Hl. constructor; [by eapply step_ok_supported|by eapply IH].
Qed.

(** X1: [apply_changes] returns normally only if a file is loaded and every
    message of the batch is a preference or names a table and a column of
    the reflected schema: a batch with any other message never ends
    normally. *)
Theorem apply_changes_ok_supported self msgs :
  (apply_changes self msgs).1 = Ok () ->
  is_Some (engine self)
  /\ Forall (fun m => dataset m = "prefs" \/ supported (_meta self) m = true) msgs.
Proof.
  unfold apply_changes. destruct (engine self) as [db|]; [|done].
  pose proof (loop_ok_supported (_meta self) msgs
                {| s := tables db; metadata := metadata_json self; current := None;
                   current_value := ∅ |}) as Hl.
  destruct (loop _ _ _) as [[x|] st]; [done|]. intros _. split; [eauto|by apply Hl].
Qed.

Lemma apply_changes_ok_supported_witness :
  is_Some (engine example_replica)
  /\ Forall (fun m => dataset m = "prefs" \/ supported (_meta example_replica) m = true)
       (prefs_message :: amount_messages).
Proof.
  apply (apply_changes_ok_supported example_replica (prefs_message :: amount_messages)).
  vm_compute. reflexivity.
Defined.

Lemma apply_changes_raise_engine self msgs e :
  (apply_changes self msgs).1 = Raise e ->
  engine (apply_changes self msgs).2 = engine self.
Proof.
  unfold apply_changes. destruct (engine self) as [db|] eqn:He.
  - by destruct (loop _ _ _) as [[x|] st].
  - simpl. by rewrite He.
Qed.

(** X2: whenever [apply_changes] raises, whatever the batch, the replica is
    the one before the call except for its metadata document: no relational
    write of the batch survives, the groups written before the failing
    message included. *)
Theorem apply_changes_raise_keeps_database self msgs e :
  (apply_changes self msgs).1 = Raise e ->
  engine (apply_changes self msgs).2 = engine self
  /\ exists md, (apply_changes self msgs).2 = set_metadata_json md self.
Proof.
  unfold apply_changes. destruct (engine self) as [db|] eqn:He.
  - destruct (loop _ _ _) as [[x|] st]; simpl; [|done]. intros _. eauto.
  - simpl. intros _. rewrite He. split; [done|].
    exists (metadata_json self). by rewrite set_metadata_json_same.
Qed.

Lemma apply_changes_raise_keeps_database_witness :
  engine (apply_changes example_replica (amount_messages ++ [unknown_table_message])).2
  = engine example_replica
  /\ exists md,
       (apply_changes example_replica (amount_messages ++ [unknown_table_message])).2
       = set_metadata_json md example_replica.
Proof.
  apply (apply_changes_raise_keeps_database example_replica
           (amount_messages ++ [unknown_table_message])
           (table_not_found unknown_table_message)).
  vm_compute. reflexivity.
Defined.

(** X3: an empty batch on a loaded file returns normally and leaves the
    replica exactly as it was. *)
Theorem apply_changes_nil self db :
  engine self = Some db -> apply_changes self [] = (Ok (), self).
Proof.
  intros He. unfold apply_changes. rewrite He. simpl.
  destruct self, db. simpl in *. by subst.
Qed.

Lemma apply_changes_nil_witness : apply_changes example_replica [] = (Ok (), example_replica).
Proof.
  apply (apply_changes_nil example_replica {| tables := ∅; messages_clock := None |}).
  reflexivity.
Defined.

(** X5: on supported messages whose row ids are not empty, a batch cut in
    two and applied in two calls gives the same outcome and replica as the
    whole batch in one call. *)
Theorem apply_changes_app self db l1 l2 :
  engine self = Some db ->
  Forall (fun m => supported (_meta self) m = true /\ row m ≠ "") (l1 ++ l2) ->
  apply_changes self (l1 ++ l2) = apply_changes (apply_changes self l1).2 l2.
Proof.
  intros He Hall. pose proof Hall as [H1 H2]%Forall_app.
  rewrite (apply_changes_assign self db (l1 ++ l2) He Hall).
  rewrite (apply_changes_assign self db l1 He H1). cbn [snd].
  rewrite (apply_changes_assign
             (set_engine (Some (set_tables (fold_left assign l1 (tables db)) db)) self)
             (set_tables (fold_left assign l1 (tables db)) db) l2 eq_refl H2).
  by rewrite fold_left_app.
Qed.

Lemma apply_changes_app_witness :
  apply_changes example_replica (amount_messages ++ two_row_messages)
  = apply_changes (apply_changes example_replica amount_messages).2 two_row_messages.
Proof.
  apply (apply_changes_app example_replica {| tables := ∅; messages_clock := None |}
           amount_messages two_row_messages).
  - reflexivity.
  - repeat constructor; vm_compute; congruence.
Defined.

Lemma apply_changes_individually_witness :
  apply_changes example_replica two_row_messages
  = (Ok (), apply_individually example_replica two_row_messages).
Proof.
  apply (apply_changes_individually example_replica
           {| tables := ∅; messages_clock := None |} two_row_messages).
  - reflexivity.
  - repeat constructor; vm_compute; congruence.
Defined.

Lemma apply_changes_last_writer_wins_witness :
  cell (store (apply_changes example_replica amount_messages).2) "transactions" "A" "amount"
  = match last_assigned amount_messages "transactions" "A" "amount" with
    | Some v => Some v
    | None => cell (store example_replica) "transactions" "A" "amount"
    end.
Proof.
  apply (apply_changes_last_writer_wins example_replica
           {| tables := ∅; messages_clock := None |} amount_messages
           "transactions" "A" "amount").
  - reflexivity.
  - repeat constructor; vm_compute; congruence.
Defined.

(** ** [sync]: failures and what is sent *)

(** X8: a sync round that raises, at whatever step, leaves the replica
    clock as it was, in memory and in the database, and leaves the whole
    database as it was. *)
Theorem sync_raise_keeps_clock_and_database self changes e :
  (sync self changes).1 = Raise e ->
  _client (sync self changes).2 = _client self
  /\ engine (sync self changes).2 = engine self.
Proof.
  unfold sync.
  destruct (_file self) as [file|]; [|done].
  destruct (_client self) as [client|] eqn:Hc; [|done].
  destruct (get_messages changes _) as [msgs|x]; [|done].
  rewrite apply_changes_set_relay.
  destruct (apply_changes_frame self msgs) as (_ & Hcl & _).
  pose proof (apply_changes_raise_engine self msgs) as Hdb.
  destruct (apply_changes self msgs) as [[[]|x] self2]; simpl in *.
  - by destruct (messages changes).
  - intros _. by rewrite Hcl, (Hdb x eq_refl).
Qed.

Lemma sync_raise_keeps_clock_and_database_witness :
  _client (sync synced_replica
             (plain_response [(stamp 2000, unknown_table_message)])).2
  = _client synced_replica
  /\ engine (sync synced_replica
               (plain_response [(stamp 2000, unknown_table_message)])).2
     = engine synced_replica.
Proof.
  apply (sync_raise_keeps_clock_and_database synced_replica
           (plain_response [(stamp 2000, unknown_table_message)])
           (table_not_found unknown_table_message)).
  vm_compute. reflexivity.
Defined.

(** X9: with a file and a clock loaded, a sync round hands the relay exactly
    one request, whatever the outcome of the round: it carries no message,
    the ids of the file, and the replica's last timestamp. *)
Theorem sync_sends_one_empty_request self file client changes :
  _file self = Some file ->
  _client self = Some client ->
  relay (sync self changes).2
  = relay self
    ++ [ {| req_messages := []; fileId := file_id file; groupId := group_id file;
            keyId := encrypt_key_id file;
            since := {| millis := ts client; counter := 0;
                        clientId := client_id client |} |} ].
Proof.
  intros Hf Hc. unfold sync. rewrite Hf, Hc.
  destruct (get_messages changes _) as [msgs|x]; [|done].
  rewrite apply_changes_set_relay.
  destruct (apply_changes self msgs) as [[[]|x] self2]; simpl; [|done].
  by destruct (messages changes).
Qed.

Lemma sync_sends_one_empty_request_witness :
  relay (sync synced_replica unordered_backlog).2
  = relay synced_replica
    ++ [ {| req_messages := []; fileId := file_id example_file;
            groupId := group_id example_file; keyId := encrypt_key_id example_file;
            since := {| millis := ts example_client; counter := 0;
                        clientId := client_id example_client |} |} ].
Proof.
  apply (sync_sends_one_empty_request synced_replica example_file example_client
           unordered_backlog); reflexivity.
Defined.

(** ** [set_file] *)

(** X10: [set_file] on a string succeeds exactly when the listing holds one
    single entry, counted with repetitions, that is not deleted and whose
    file id, name or group id is the string; it then keeps and returns that
    file. *)
Theorem set_file_unique user_files self identifier file :
  (set_file user_files self (inl identifier)).1 = Ok file
  <-> exists entry,
        List.filter (identified_by identifier) user_files = [entry]
        /\ user_file entry = file.
Proof.
  unfold set_file.
  destruct (List.filter (identified_by identifier) user_files)
    as [|entry [|entry' rest]]; simpl.
  - split; [done|]. by intros (? & ? & _).
  - split.
    + intros [= <-]. eauto.
    + by intros (? & [= <-] & <-).
  - split; [done|]. by intros (? & ? & _).
Qed.

(** X11: when [set_file] returns a file for a string, the file is in the
    listing with [deleted = 0], the string is its file id, its name or its
    group id, and it is the replica's file from then on. *)
Theorem set_file_sound user_files self identifier file :
  (set_file user_files self (inl identifier)).1 = Ok file ->
  (exists entry, In entry user_files /\ user_file entry = file /\ deleted entry = 0%Z)
  /\ (file_id file = identifier \/ file_name file = identifier
      \/ group_id file = Some identifier)
  /\ _file (set_file user_files self (inl identifier)).2 = Some file.
Proof.
  intros H.
  assert (exists entry,
             List.filter (identified_by identifier) user_files = [entry]
             /\ user_file entry = file) as (entry & Hf & <-).
  { revert H. unfold set_file.
    destruct (List.filter (identified_by identifier) user_files)
      as [|entry [|entry' rest]]; simpl; [done| |done].
    intros [= <-]. eauto. }
  assert (Hin : In entry (List.filter (identified_by identifier) user_files))
    by (rewrite Hf; by left).
  apply List.filter_In in Hin as [Hin Hid].
  unfold identified_by in Hid. apply andb_prop in Hid as [Hid Hdel].
  apply Z.eqb_eq in Hdel.
  split; [eauto|]. split.
  - apply orb_prop in Hid as [Hid|Hid]; [apply orb_prop in Hid as [Hid|Hid]|];
      apply bool_decide_eq_true in Hid; auto.
  - unfold set_file. by rewrite Hf.
Qed.

Lemma set_file_sound_witness :
  (exists entry,
      In entry example_listing
      /\ user_file entry
         = {| file_id := "f1"; file_name := "Home"; group_id := Some "g1";
              encrypt_key_id := None |}
      /\ deleted entry = 0%Z)
  /\ (file_id {| file_id := "f1"; file_name := "Home"; group_id := Some "g1";
                 encrypt_key_id := None |} = "g1"
      \/ file_name {| file_id := "f1"; file_name := "Home"; group_id := Some "g1";
                      encrypt_key_id := None |} = "g1"
      \/ group_id {| file_id := "f1"; file_name := "Home"; group_id := Some "g1";
                     encrypt_key_id := None |} = Some "g1")
  /\ _file (set_file example_listing example_replica (inl "g1")).2
     = Some {| file_id := "f1"; file_name := "Home"; group_id := Some "g1";
               encrypt_key_id := None |}.
Proof.
  apply (set_file_sound example_listing example_replica "g1"
           {| file_id := "f1"; file_name := "Home"; group_id := Some "g1";
              encrypt_key_id := None |}).
  vm_compute. reflexivity.
Defined.

Lemma filter_identified_live identifier (l : list UserFile) :
  List.filter (identified_by identifier) (List.filter (fun f => (deleted f =? 0)%Z) l)
  = List.filter (identified_by identifier) l.
Proof.
  induction l as [|f l IH]; [done|]. cbn [List.filter].
  destruct (deleted f =? 0)%Z eqn:Hd.
  - cbn [List.filter]. by rewrite IH.
  - rewrite IH. unfold identified_by at 2. by rewrite Hd, andb_false_r.
Qed.

(** X12: deleted files are invisible to [set_file]: the call on a listing
    and the call on the listing without its deleted entries agree. *)
Theorem set_file_ignores_deleted user_files self file_id :
  set_file user_files self file_id
  = set_file (List.filter (fun f => (deleted f =? 0)%Z) user_files) self file_id.
Proof.
  destruct file_id as [identifier|file]; [|done]. unfold set_file.
  by rewrite filter_identified_live.
Qed.

(** ** [delete_budget] and [update_metadata] *)

(** X13: after a [delete_budget] that succeeds the file has no group id, and
    a [commit] that follows hands nothing to the relay, whatever its
    outcome. *)
Theorem delete_budget_then_commit_sends_nothing set_messages self :
  (delete_budget self).1 = Ok () ->
  group_id <$> _file (delete_budget self).2 = Some None
  /\ relay (commit set_messages (delete_budget self).2).2 = relay self.
Proof.
  unfold delete_budget. destruct (_file self) as [file|] eqn:Hf; [|done]. intros _.
  split; [done|]. unfold commit. simpl.
  destruct (_session self) as [session|]; [|done].
  destruct (_client self) as [client|]; [|done].
  destruct (info_messages session) as [msgs|];
    [by destruct (set_messages _ _ _ _) as [req client']|done].
Qed.

Lemma delete_budget_then_commit_sends_nothing_witness :
  group_id <$> _file (delete_budget (set_session (Some example_session) synced_replica)).2
  = Some None
  /\ relay (commit stamp_messages
              (delete_budget (set_session (Some example_session) synced_replica)).2).2
     = relay (set_session (Some example_session) synced_replica).
Proof.
  apply (delete_budget_then_commit_sends_nothing stamp_messages
           (set_session (Some example_session) synced_replica)).
  reflexivity.
Defined.

(** X14: after [update_metadata] the metadata file exists, and reading a key
    gives the value of the patch if the patch has the key and the value the
    file had before otherwise. *)
Theorem update_metadata_lookup self patch k :
  is_Some (get_metadata (update_metadata_file self patch))
  /\ get_metadata (update_metadata_file self patch) ≫= (.!! k)
     = match patch !! k with
       | Some v => Some v
       | None => get_metadata self ≫= (.!! k)
       end.
Proof.
  unfold get_metadata, update_metadata_file. simpl.
  destruct (metadata_json self) as [config|]; simpl.
  - split; [eauto|]. rewrite lookup_union.
    by destruct (patch !! k), (config !! k).
  - split; [eauto|]. by destruct (patch !! k).
Qed.

(** X15: two calls of [update_metadata] are one call with the second patch
    laid over the first. *)
Theorem update_metadata_twice self p1 p2 :
  update_metadata_file (update_metadata_file self p1) p2
  = update_metadata_file self (p2 ∪ p1).
Proof.
  unfold update_metadata_file, set_metadata_json. simpl. f_equal.
  destruct (metadata_json self) as [config|]; simpl; [|done].
  by rewrite (assoc_L (∪)).
Qed.

(** ** [_run_bank_sync_account]: failures, bounds and outcomes *)

Section BankSyncAccountFacts.

Variable reconcile_transaction :
  Ledger -> Z -> Accounts -> string -> option string -> Z -> string -> bool -> string ->
  list Transactions -> Transactions * Ledger.
Variable bank_sync_transactions :
  string -> option string -> Z -> option string -> BankSyncResponse.
Variable today : Z.

Lemma reconcile_all_changed session acct reversed imported :
  Forall (fun t => changed t = true) imported ->
  Forall (fun t => changed t = true)
    (reconcile_all reconcile_transaction session acct reversed imported).1.
Proof.
  revert session imported.
  induction reversed as [|t l IH]; intros session imported Himp; [done|].
  cbn [reconcile_all]. destruct (negb (booked t)); [by apply IH|].
  destruct (reconcile_transaction _ _ _ _ _ _ _ _ _ _) as [r session1].
  destruct (changed r) eqn:Hr; [|by apply IH].
  apply IH. apply Forall_app. split; [done|]. by constructor.
Qed.

Lemma reconcile_all_length session acct reversed imported :
  length (reconcile_all reconcile_transaction session acct reversed imported).1
  <= length imported + length (List.filter booked reversed).
Proof.
  revert session imported.
  induction reversed as [|t l IH]; intros session imported; [simpl; lia|].
  cbn [reconcile_all List.filter]. destruct (booked t); cbn [negb]; [|apply IH].
  destruct (reconcile_transaction _ _ _ _ _ _ _ _ _ _) as [r session1].
  destruct (changed r).
  - etrans; [apply IH|]. rewrite length_app. simpl. lia.
  - etrans; [apply IH|]. simpl. lia.
Qed.

Lemma first_sync_starting_balance_shape session acct balance new_transactions :
  (first_sync_starting_balance today session acct balance new_transactions).1 = []
  \/ exists t,
       (first_sync_starting_balance today session acct balance new_transactions).1 = [t]
       /\ changed t = true.
Proof.
  unfold first_sync_starting_balance.
  destruct (balance_to_use acct balance new_transactions =? 0)%Z; [by left|]. right.
  destruct (offbudget acct); [|destruct (get_or_create_payee _ _)]; simpl; eauto.
Qed.

(** X16: whenever [_run_bank_sync_account] raises, for a missing sync
    source, a GoCardless account without bank or an error answer of the
    server, the session is the one before the call: nothing was created. *)
Theorem run_bank_sync_account_raise_keeps_session session acct start_date is_first_sync e :
  (_run_bank_sync_account reconcile_transaction bank_sync_transactions today
     session acct start_date is_first_sync).1 = Raise e ->
  (_run_bank_sync_account reconcile_transaction bank_sync_transactions today
     session acct start_date is_first_sync).2 = session.
Proof.
  unfold _run_bank_sync_account.
  destruct (account_sync_source acct) as [sync_method|]; [|done].
  destruct (requisition_id_of acct sync_method) as [requisition_id|x]; [|done].
  destruct (bank_sync_transactions _ _ _ _) as [? ? ?|balance txs]; [done|].
  destruct (if is_first_sync then _ else _) as [imported session1].
  by destruct (reconcile_all _ _ _ _ _).
Qed.

(** X17: every transaction [_run_bank_sync_account] returns is one whose
    [changed()] holds: entities that reconciliation matched without changing
    them are never returned. *)
Theorem run_bank_sync_account_returns_changed session acct start_date is_first_sync imported :
  (_run_bank_sync_account reconcile_transaction bank_sync_transactions today
     session acct start_date is_first_sync).1 = Ok imported ->
  Forall (fun t => changed t = true) imported.
Proof.
  unfold _run_bank_sync_account.
  destruct (account_sync_source acct) as [sync_method|]; [|done].
  destruct (requisition_id_of acct sync_method) as [requisition_id|x]; [|done].
  destruct (bank_sync_transactions _ _ _ _) as [? ? ?|balance txs]; [done|].
  assert (Hstart : Forall (fun t => changed t = true)
            (if is_first_sync
             then first_sync_starting_balance today session acct balance txs
             else ([], session)).1).
  { destruct is_first_sync; [|by constructor].
    destruct (first_sync_starting_balance_shape session acct balance txs)
      as [-> | (t & -> & Ht)]; by repeat constructor. }
  destruct (if is_first_sync then _ else _) as [imported0 session1].
  pose proof (reconcile_all_changed session1 acct (rev txs) imported0 Hstart) as Hall.
  destruct (reconcile_all _ _ _ _ _) as [imp session2]. simpl in *.
  by intros [= <-].
Qed.

(** X18: [_run_bank_sync_account] returns at most one transaction per booked
    transaction of the feed, and one more on a first sync. *)
Theorem run_bank_sync_account_length session acct start_date is_first_sync
    sync_method requisition_id balance new_transactions imported :
  account_sync_source acct = Some sync_method ->
  requisition_id_of acct sync_method = Ok requisition_id ->
  bank_sync_transactions (lower sync_method) (account_id acct) start_date requisition_id
    = BankSyncTransactionData balance new_transactions ->
  (_run_bank_sync_account reconcile_transaction bank_sync_transactions today
     session acct start_date is_first_sync).1 = Ok imported ->
  length imported
  <= (if is_first_sync then 1 else 0) + length (List.filter booked new_transactions).
Proof.
  intros Hsrc Hreq Hfeed. unfold _run_bank_sync_account. rewrite Hsrc, Hreq, Hfeed.
  assert (Hstart : length
            (if is_first_sync
             then first_sync_starting_balance today session acct balance new_transactions
             else ([], session)).1 <= if is_first_sync then 1 else 0).
  { destruct is_first_sync; [|done].
    destruct (first_sync_starting_balance_shape session acct balance new_transactions)
      as [-> | (t & -> & _)]; simpl; lia. }
  destruct (if is_first_sync then _ else _) as [imported0 session1].
  pose proof (reconcile_all_length session1 acct (rev new_transactions) imported0) as Hlen.
  rewrite List.filter_rev, length_rev in Hlen.
  destruct (reconcile_all _ _ _ _ _) as [imp session2]. simpl in *.
  intros [= <-]. lia.
Qed.

(** X19: a first sync whose balance to use is zero is a later sync: no
    starting balance is created and the outcome is that of the call with
    [is_first_sync] false. *)
Theorem run_bank_sync_account_zero_balance session acct start_date :
  (forall sync_method requisition_id balance new_transactions,
      account_sync_source acct = Some sync_method ->
      requisition_id_of acct sync_method = Ok requisition_id ->
      bank_sync_transactions (lower sync_method) (account_id acct) start_date requisition_id
      = BankSyncTransactionData balance new_transactions ->
      balance_to_use acct balance new_transactions = 0%Z) ->
  _run_bank_sync_account reconcile_transaction bank_sync_transactions today
    session acct start_date true
  = _run_bank_sync_account reconcile_transaction bank_sync_transactions today
      session acct start_date false.
Proof.
  intros Hzero. unfold _run_bank_sync_account.
  destruct (account_sync_source acct) as [sync_method|] eqn:Hsrc; [|done].
  destruct (requisition_id_of acct sync_method) as [requisition_id|x] eqn:Hreq; [|done].
  destruct (bank_sync_transactions _ _ _ _) as [? ? ?|balance txs] eqn:Hfeed; [done|].
  unfold first_sync_starting_balance.
  by rewrite (Hzero sync_method requisition_id balance txs eq_refl Hreq Hfeed).
Qed.

End BankSyncAccountFacts.

Lemma run_bank_sync_account_raise_keeps_session_witness :
  (_run_bank_sync_account reconcile_by_imported_id error_feed 20010
     ledger_with_history gocardless_account 19920 true).2 = ledger_with_history.
Proof.
  apply (run_bank_sync_account_raise_keeps_session reconcile_by_imported_id error_feed 20010
           ledger_with_history gocardless_account 19920 true
           (ActualBankSyncError "INVALID_ACCESS_TOKEN" "rejected" "token expired")).
  reflexivity.
Defined.

Lemma run_bank_sync_account_returns_changed_witness :
  Forall (fun t => changed t = true) scenario_imported.
Proof.
  apply (run_bank_sync_account_returns_changed reconcile_by_imported_id scenario_feed 20010
           empty_ledger simplefin_account 19920 true scenario_imported).
  vm_compute. reflexivity.
Defined.

Lemma run_bank_sync_account_length_witness :
  length scenario_imported <= (if true then 1 else 0) + length (List.filter booked [booked_item]).
Proof.
  apply (run_bank_sync_account_length reconcile_by_imported_id scenario_feed 20010
           empty_ledger simplefin_account 19920 true "simpleFin" None 5000 [booked_item]
           scenario_imported).
  - reflexivity.
  - reflexivity.
  - reflexivity.
  - vm_compute. reflexivity.
Defined.

Lemma run_bank_sync_account_zero_balance_witness :
  _run_bank_sync_account reconcile_by_imported_id zero_balance_feed 20010
    empty_ledger gocardless_account 19920 true
  = _run_bank_sync_account reconcile_by_imported_id zero_balance_feed 20010
      empty_ledger gocardless_account 19920 false.
Proof.
  apply (run_bank_sync_account_zero_balance reconcile_by_imported_id zero_balance_feed 20010
           empty_ledger gocardless_account 19920).
  intros sync_method requisition_id balance new_transactions _ _ [= <- <-].
  reflexivity.
Defined.

(** ** [run_bank_sync] *)

Section RunBankSyncFacts.

Variable reconcile_transaction :
  Ledger -> Z -> Accounts -> string -> option string -> Z -> string -> bool -> string ->
  list Transactions -> Transactions * Ledger.
Variable bank_sync_transactions :
  string -> option string -> Z -> option string -> BankSyncResponse.
Variable today : Z.
Variable get_transactions : Ledger -> Accounts -> list Transactions.
Variable bank_sync_status : string -> bool.

Lemma sync_accounts_eligible session accounts start_date is_first_sync imported :
  sync_accounts reconcile_transaction bank_sync_transactions today get_transactions
    bank_sync_status session accounts start_date is_first_sync imported
  = sync_accounts reconcile_transaction bank_sync_transactions today get_transactions
      bank_sync_status session (List.filter (eligible bank_sync_status) accounts)
      start_date is_first_sync imported.
Proof.
  revert session is_first_sync imported.
  induction accounts as [|acct rest IH]; intros session is_first_sync imported; [done|].
  cbn [List.filter]. unfold eligible at 1.
  destruct (truthy (account_id acct) && truthy (account_sync_source acct)) eqn:Hids.
  - destruct (bank_sync_status (lower (default "" (account_sync_source acct)))) eqn:Hst.
    + cbn [andb sync_accounts]. rewrite Hids, Hst. cbn [negb].
      destruct (match start_date with Some _ => _ | None => _ end) as [d f].
      destruct (_run_bank_sync_account _ _ _ _ _ _ _) as [[transactions|e] session1];
        [apply IH|done].
    + cbn [andb sync_accounts]. rewrite Hids, Hst. cbn [negb]. apply IH.
  - cbn [andb sync_accounts]. rewrite Hids. cbn [negb]. apply IH.
Qed.

Lemma reconcile_all_unflagged session acct reversed imported :
  (forall s d a p n amt iid c ip m,
      starting_balance_flag (reconcile_transaction s d a p n amt iid c ip m).1 = 0%Z) ->
  Forall (fun t => starting_balance_flag t = 0%Z) imported ->
  Forall (fun t => starting_balance_flag t = 0%Z)
    (reconcile_all reconcile_transaction session acct reversed imported).1.
Proof.
  intros Hrt. revert session imported.
  induction reversed as [|t l IH]; intros session imported Himp; [done|].
  cbn [reconcile_all]. destruct (negb (booked t)); [by apply IH|].
  pose proof (Hrt session (date t) acct
                (if truthy (payee_name t) then default "" (payee_name t) else "")
                (notes t) (transaction_amount t) (transaction_id t) (booked t)
                (if truthy (payee_name t) then default "" (payee_name t) else "")
                imported) as Hflag.
  destruct (reconcile_transaction _ _ _ _ _ _ _ _ _ _) as [r session1].
  destruct (changed r); [|by apply IH].
  apply IH. apply Forall_app. split; [done|]. by constructor.
Qed.

Lemma sync_accounts_unflagged session accounts start_date imported0 imported :
  (forall s d a p n amt iid c ip m,
      starting_balance_flag (reconcile_transaction s d a p n amt iid c ip m).1 = 0%Z) ->
  Forall (fun t => starting_balance_flag t = 0%Z) imported0 ->
  (sync_accounts reconcile_transaction bank_sync_transactions today get_transactions
     bank_sync_status session accounts (Some start_date) false imported0).1 = Ok imported ->
  Forall (fun t => starting_balance_flag t = 0%Z) imported.
Proof.
  intros Hrt. revert session imported0.
  induction accounts as [|acct rest IH]; intros session imported0 Himp0.
  - simpl. by intros [= <-].
  - cbn [sync_accounts].
    destruct (negb (truthy (account_id acct) && truthy (account_sync_source acct)));
      [by apply IH|].
    destruct (negb (bank_sync_status _)); [by apply IH|].
    unfold _run_bank_sync_account.
    destruct (account_sync_source acct) as [sync_method|]; [|done].
    destruct (requisition_id_of acct sync_method) as [requisition_id|x]; [|done].
    destruct (bank_sync_transactions _ _ _ _) as [? ? ?|balance txs]; [done|].
    pose proof (reconcile_all_unflagged session acct (rev txs) [] Hrt (Forall_nil_2 _))
      as Hall.
    destruct (reconcile_all _ _ _ _ _) as [imp session1]. simpl in Hall.
    apply IH. by apply Forall_app.
Qed.

End RunBankSyncFacts.

(** X20: [run_bank_sync] on all accounts passes over every account that
    lacks a provider account id or a sync source, or whose provider the
    server has not configured: the call is the call on the other accounts
    alone. *)
Theorem run_bank_sync_skips_ineligible reconcile_transaction bank_sync_transactions today
    get_accounts get_account get_transactions get_parent_transactions bank_sync_status
    ruleset_run session start_date run_rules_flag :
  run_bank_sync reconcile_transaction bank_sync_transactions today get_accounts get_account
    get_transactions get_parent_transactions bank_sync_status ruleset_run
    session None start_date run_rules_flag
  = run_bank_sync reconcile_transaction bank_sync_transactions today
      (fun s => List.filter (eligible bank_sync_status) (get_accounts s)) get_account
      get_transactions get_parent_transactions bank_sync_status ruleset_run
      session None start_date run_rules_flag.
Proof.
  unfold run_bank_sync. by rewrite sync_accounts_eligible.
Qed.

(** X21: with an explicit start date no account is treated as a first sync:
    provided reconciliation itself never hands back a starting balance, no
    transaction [run_bank_sync] returns carries the starting-balance flag,
    also for accounts without any transaction. *)
Theorem run_bank_sync_start_date_no_starting_balance reconcile_transaction
    bank_sync_transactions today get_accounts get_account get_transactions
    get_parent_transactions bank_sync_status ruleset_run session account start_date imported :
  (forall s d a p n amt iid c ip m,
      starting_balance_flag (reconcile_transaction s d a p n amt iid c ip m).1 = 0%Z) ->
  (run_bank_sync reconcile_transaction bank_sync_transactions today get_accounts get_account
     get_transactions get_parent_transactions bank_sync_status ruleset_run
     session account (Some start_date) false).1 = Ok imported ->
  Forall (fun t => starting_balance_flag t = 0%Z) imported.
Proof.
  intros Hrt. unfold run_bank_sync.
  destruct (match account with None => _ | Some _ => _ end) as [accounts|e]; [|done].
  pose proof (sync_accounts_unflagged reconcile_transaction bank_sync_transactions today
                get_transactions bank_sync_status session accounts start_date [] imported
                Hrt (Forall_nil_2 _)) as Hall.
  destruct (sync_accounts _ _ _ _ _ _ _ _ _ _) as [[imp|e] session1]; [|done].
  simpl in *. intros [= <-]. by apply Hall.
Qed.

Lemma run_bank_sync_start_date_no_starting_balance_witness :
  Forall (fun t => starting_balance_flag t = 0%Z) scenario_reconciled.
Proof.
  apply (run_bank_sync_start_date_no_starting_balance reconcile_always_new scenario_feed
           20010 (fun _ => [manual_account; simplefin_account]) (fun _ _ => None)
           transactions_of ledger_transactions (fun _ => true) (fun s l => (l, s))
           empty_ledger None 19920 scenario_reconciled).
  - reflexivity.
  - vm_compute. reflexivity.
Defined.

(** X22: [is_first_sync] is never reset inside the loop: when the first of
    two accounts to sync has no local transaction, the second one is synced
    as a first sync as well, from the date of its latest transaction if it
    has any. *)
Theorem run_bank_sync_first_sync_sticks reconcile_transaction bank_sync_transactions today
    get_accounts get_account get_transactions get_parent_transactions bank_sync_status
    ruleset_run session acct1 acct2 imported1 session1 :
  get_accounts session = [acct1; acct2] ->
  eligible bank_sync_status acct1 = true ->
  eligible bank_sync_status acct2 = true ->
  get_transactions session acct1 = [] ->
  _run_bank_sync_account reconcile_transaction bank_sync_transactions today
    session acct1 (today - 90)%Z true = (Ok imported1, session1) ->
  run_bank_sync reconcile_transaction bank_sync_transactions today get_accounts get_account
    get_transactions get_parent_transactions bank_sync_status ruleset_run
    session None None false
  = match _run_bank_sync_account reconcile_transaction bank_sync_transactions today
            session1 acct2
            match get_transactions session1 acct2 with
            | latest :: _ => tx_date latest
            | [] => (today - 90)%Z
            end
            true with
    | (Ok imported2, session2) => (Ok (imported1 ++ imported2), session2)
    | (Raise e, session2) => (Raise e, session2)
    end.
Proof.
  intros Hacc [[Hid1 Hsrc1]%andb_prop Hst1]%andb_prop
    [[Hid2 Hsrc2]%andb_prop Hst2]%andb_prop Hnone Hrun.
  unfold run_bank_sync. rewrite Hacc. cbn [sync_accounts].
  rewrite Hid1, Hsrc1, Hst1, Hnone. cbn [andb negb]. rewrite Hrun.
  rewrite Hid2, Hsrc2, Hst2. cbn [andb negb app].
  destruct (get_transactions session1 acct2) as [|latest rest];
    destruct (_run_bank_sync_account _ _ _ session1 _ _ _) as [[imported2|e] session2];
    reflexivity.
Qed.

Lemma run_bank_sync_first_sync_sticks_witness :
  run_bank_sync reconcile_by_imported_id scenario_feed 20010
    (fun _ => [simplefin_account; gocardless_account]) (fun _ _ => None)
    transactions_of ledger_transactions (fun _ => true) (fun s l => (l, s))
    ledger_with_history None None false
  = match _run_bank_sync_account reconcile_by_imported_id scenario_feed 20010
            ledger_after_first_sync gocardless_account
            match transactions_of ledger_after_first_sync gocardless_account with
            | latest :: _ => tx_date latest
            | [] => (20010 - 90)%Z
            end
            true with
    | (Ok imported2, session2) => (Ok (scenario_imported ++ imported2), session2)
    | (Raise e, session2) => (Raise e, session2)
    end.
Proof.
  apply (run_bank_sync_first_sync_sticks reconcile_by_imported_id scenario_feed 20010
           (fun _ => [simplefin_account; gocardless_account]) (fun _ _ => None)
           transactions_of ledger_transactions (fun _ => true) (fun s l => (l, s))
           ledger_with_history simplefin_account gocardless_account
           scenario_imported ledger_after_first_sync).
  - reflexivity.
  - reflexivity.
  - reflexivity.
  - reflexivity.
  - vm_compute. reflexivity.
Defined.

(** The account with a transaction of its own gets a starting balance all
    the same, once the account before it had none. *)
Example starting_balance_for_account_with_history :
  match run_bank_sync reconcile_by_imported_id scenario_feed 20010
          (fun _ => [simplefin_account; gocardless_account]) (fun _ _ => None)
          transactions_of ledger_transactions (fun _ => true) (fun s l => (l, s))
          ledger_with_history None None false with
  | (Ok imported, _) =>
    map (fun t => (tx_acct t, starting_balance_flag t, tx_amount t)) imported
    = [("acct-1", 1, 6200); ("acct-1", 0, -1200); ("acct-2", 1, 5000)]%Z
  | (Raise _, _) => False
  end.
Proof. vm_compute. reflexivity. Qed.

(** ** [download_master_encryption_key] on a file that is not encrypted *)

(** X23: for a file without encryption key id the password is ignored: no
    key is fetched or derived, the replica is unchanged and the master key it
    already holds is returned. *)
Theorem download_master_encryption_key_unencrypted create_key_buffer user_get_key
    self file encryption_password :
  _file self = Some file ->
  truthy (encrypt_key_id file) = false ->
  download_master_encryption_key create_key_buffer user_get_key self encryption_password
  = (Ok (_master_key self), self).
Proof.
  intros Hf Hk. unfold download_master_encryption_key. rewrite Hf, Hk. simpl.
  by destruct encryption_password.
Qed.

Lemma download_master_encryption_key_unencrypted_witness :
  download_master_encryption_key (fun _ _ => []) (fun _ => "salt") synced_replica
    (Some "secret")
  = (Ok (_master_key synced_replica), synced_replica).
Proof.
  apply (download_master_encryption_key_unencrypted (fun _ _ => []) (fun _ => "salt")
           synced_replica example_file (Some "secret")); reflexivity.
Defined.

(** ** [cleanup] *)

(** X24: [cleanup] is idempotent: a second cleanup deletes nothing more. *)
Theorem cleanup_idempotent tombstone_is_one db :
  cleanup tombstone_is_one (cleanup tombstone_is_one db) = cleanup tombstone_is_one db.
Proof.
  unfold cleanup. simpl. f_equal.
  apply map_eq. intros k. apply option_eq. intros r.
  rewrite !map_lookup_filter_Some. tauto.
Qed.

(** X25: [cleanup] only deletes: a row it leaves was there with the same
    attributes, and it leaves every row of a table that is not a message
    table unless the table is one of the seven with tombstones and the row's
    tombstone is set; the persisted clock is gone afterwards. *)
Theorem cleanup_only_deletes tombstone_is_one db :
  tables (cleanup tombstone_is_one db) ⊆ tables db
  /\ (forall table i attributes,
        tables db !! (table, i) = Some attributes ->
        table ≠ "messages_crdt" -> table ≠ "messages_clock" ->
        (table ∉ tombstone_tables \/ tombstone_is_one attributes = false) ->
        tables (cleanup tombstone_is_one db) !! (table, i) = Some attributes)
  /\ messages_clock (cleanup tombstone_is_one db) = None.
Proof.
  unfold cleanup. simpl. split; [apply map_filter_subseteq|]. split; [|done].
  intros table i attributes Hrow Hcrdt Hclock Hlive.
  apply map_lookup_filter_Some. split; [done|]. unfold survives. simpl.
  rewrite (bool_decide_eq_false_2 (table = "messages_crdt")) by done.
  rewrite (bool_decide_eq_false_2 (table = "messages_clock")) by done. simpl.
  destruct Hlive as [Hnot| ->]; [by rewrite bool_decide_eq_false_2|].
  by rewrite andb_false_r.
Qed.

(** A database with a live row, a tombstoned one, a message row and a
    tombstoned row of a table outside the list, cleaned up. *)
Example cleanup_littered :
  map (fun k => bool_decide (is_Some (tables (cleanup tombstone_int littered_database) !! k)))
    [("transactions", "A"); ("transactions", "B"); ("messages_crdt", "1"); ("notes", "N")]
  = [true; false; false; true].
Proof. vm_compute. reflexivity. Qed.
